(** * ChatLlamaCpp: a shallow embedding of
      libs/community/langchain_community/chat_models/llamacpp.py

    The adapter translates framework chat messages and configuration into
    keyword arguments for a llama.cpp session, and the session's responses
    back into chat results and streaming chunks.  Python dictionaries are
    finite maps from strings to dynamically typed values, exceptions are an
    explicit error result, and a generator is the list of chunks it yields
    together with the exception (if any) that ends it. *)

From Stdlib Require Import ZArith QArith.
From stdpp Require Import gmap strings list fin_maps.

#[local] Set Warnings "-register-all".
#[local] Open Scope string_scope.

(** ** Exceptions *)

(** The [ValueError]s of the module, one constructor per [raise] site (the
    messages are f-strings over the offending values). *)
Inductive value_error :=
  | ModelLoadFailed (model_path : string)   (* line 199 *)
  | GrammarConflict                         (* line 207 *)
  | ToolChoiceNotProvided                   (* lines 343 and 352 *)
  | ToolChoiceNotSingle (received : nat)    (* line 358 *)
  | ToolChoiceUnrecognized                  (* line 364 *)
  | UnsupportedArguments                    (* line 514 *)
  | SchemaMissing.                          (* line 517 *)

Inductive exn :=
  | ImportError
  | ValueError (why : value_error)
  | KeyError (key : string)
  | IndexError
  | TypeError
  | AttributeError
  | Raised (what : string).   (* raised inside an external collaborator *)

(** The error kinds of the design document, and the raise sites they name. *)
Inductive error_kind :=
  | ConfigurationError
  | ModelLoadError
  | ToolChoiceError
  | SchemaError
  | UnsupportedArgumentError.

Definition kind_of (e : exn) : option error_kind :=
  match e with
  | ImportError => Some ConfigurationError
  | ValueError GrammarConflict => Some ConfigurationError
  | ValueError (ModelLoadFailed _) => Some ModelLoadError
  | ValueError ToolChoiceNotProvided => Some ToolChoiceError
  | ValueError (ToolChoiceNotSingle _) => Some ToolChoiceError
  | ValueError ToolChoiceUnrecognized => Some ToolChoiceError
  | ValueError SchemaMissing => Some SchemaError
  | ValueError UnsupportedArguments => Some UnsupportedArgumentError
  | _ => None
  end.

Inductive result (A : Type) :=
  | Ok (a : A)
  | Raise (e : exn).
Arguments Ok {A} a.
Arguments Raise {A} e.

#[global] Instance result_ret : MRet result := @Ok.
#[global] Instance result_bind : MBind result :=
  λ A B f m, match m with Ok a => f a | Raise e => Raise e end.
#[global] Instance result_fmap : FMap result :=
  λ A B f m, match m with Ok a => Ok (f a) | Raise e => Raise e end.

(** ** Python values *)

Inductive value :=
  | VNone
  | VBool (b : bool)
  | VInt (z : Z)
  | VFloat (q : Q)
  | VStr (s : string)
  | VList (l : list value)
  | VDict (d : gmap string value)
  | VExc (e : exn)
  | VObj (cls : string) (attrs : gmap string value).

(** [bool(v)] *)
Definition truthy (v : value) : bool :=
  match v with
  | VNone => false
  | VBool b => b
  | VInt z => negb (z =? 0)%Z
  | VFloat q => negb (Qeq_bool q 0)
  | VStr s => negb (String.eqb s EmptyString)
  | VList l => negb (Nat.eqb (length l) 0)
  | VDict d => negb (Nat.eqb (size d) 0)
  | VExc _ => true
  | VObj _ _ => true
  end.

(** [v is None] *)
Definition is_None (v : value) : bool :=
  match v with VNone => true | _ => false end.

(** [v[key]] for a string key *)
Definition getitem (v : value) (key : string) : result value :=
  match v with
  | VDict d => match d !! key with Some x => Ok x | None => Raise (KeyError key) end
  | _ => Raise TypeError
  end.

(** [v[i]] for an integer index [i >= 0] *)
Definition getidx (v : value) (i : nat) : result value :=
  match v with
  | VList l => match l !! i with Some x => Ok x | None => Raise IndexError end
  | VStr s =>
      match String.get i s with
      | Some c => Ok (VStr (String c EmptyString))
      | None => Raise IndexError
      end
  | VDict _ => Raise (KeyError EmptyString)
  | _ => Raise TypeError
  end.

(** [v.get(key)] and [v.get(key, default)] *)
Definition dict_get (v : value) (key : string) (dflt : value) : result value :=
  match v with
  | VDict d => Ok (default dflt (d !! key))
  | _ => Raise AttributeError
  end.

(** [key in v] *)
Definition contains (v : value) (key : string) : result bool :=
  match v with
  | VDict d => Ok (bool_decide (is_Some (d !! key)))
  | VList l => Ok (existsb (λ x, match x with VStr s => String.eqb s key | _ => false end) l)
  | VStr s => Ok (match String.index 0 key s with Some _ => true | None => false end)
  | _ => Raise TypeError
  end.

(** [len(v)] *)
Definition len (v : value) : result nat :=
  match v with
  | VList l => Ok (length l)
  | VStr s => Ok (String.length s)
  | VDict d => Ok (size d)
  | _ => Raise TypeError
  end.

(** The items a [for] loop over [v] visits (the keys of a dictionary in
    the order of the map, not of insertion). *)
Definition iterate (v : value) : result (list value) :=
  match v with
  | VList l => Ok l
  | VDict d => Ok (VStr <$> (map_to_list d).*1)
  | VStr s => Ok ((λ c, VStr (String c EmptyString)) <$> String.list_ascii_of_string s)
  | _ => Raise TypeError
  end.

Definition to_Q (v : value) : option Q :=
  match v with
  | VBool b => Some (inject_Z (Z.b2z b))
  | VInt z => Some (inject_Z z)
  | VFloat q => Some q
  | _ => None
  end.

(** [a == b].  Exact on strings, numbers and [None], which is what tool
    names are compared as; containers and objects compare unequal here. *)
Definition py_eq (a b : value) : bool :=
  match a, b with
  | VNone, VNone => true
  | VStr s, VStr t => String.eqb s t
  | _, _ =>
      match to_Q a, to_Q b with
      | Some p, Some q => Qeq_bool p q
      | _, _ => false
      end
  end.

Definition of_option {A} (f : A → value) (o : option A) : value :=
  match o with Some a => f a | None => VNone end.

Definition of_strings (l : list string) : value := VList (VStr <$> l).

(** ** The native library *)

(** A [llama_cpp.Llama] session: the keyword arguments of
    [create_chat_completion] go in, a response dictionary or (with
    [stream=True]) the sequence of streaming events comes out. *)
Record Llama := {
  create_chat_completion : gmap string value → result value
}.

(** The [llama_cpp] module as [validate_environment] uses it. *)
Record llama_cpp := {
  Llama_init : string → gmap string value → result Llama;
  LlamaGrammar_from_string : string → result value;
  LlamaGrammar_from_file : value → result value
}.

(** A call with explicit keywords and an unpacked dictionary of further
    keywords: a keyword given twice is a [TypeError]. *)
Definition keywords (explicit params : gmap string value)
    : result (gmap string value) :=
  if decide (dom explicit ∩ dom params = (∅ : gset string))
  then Ok (explicit ∪ params)
  else Raise TypeError.

(** ** The adapter and its fields (lines 52-156) *)

Record ChatLlamaCpp := {
  client : option Llama;
  model_path : string;
  lora_base : option string;
  lora_path : option string;
  n_ctx : Z;
  n_parts : Z;
  seed : Z;
  f16_kv : bool;
  logits_all : bool;
  vocab_only : bool;
  use_mlock : bool;
  n_threads : option Z;
  n_batch : option Z;
  n_gpu_layers : option Z;
  suffix : option string;
  max_tokens : option Z;
  temperature : option Q;
  top_p : option Q;
  logprobs : option Z;
  echo : option bool;
  stop : option (list string);
  repeat_penalty : option Q;
  top_k : option Z;
  last_n_tokens_size : option Z;
  use_mmap : option bool;
  rope_freq_scale : Q;
  rope_freq_base : Q;
  model_kwargs : gmap string value;
  streaming : bool;
  grammar_path : value;
  grammar : value;
  verbose : bool
}.

Definition with_client (c : Llama) (values : ChatLlamaCpp) : ChatLlamaCpp := {|
  client := Some c;
  model_path := model_path values; lora_base := lora_base values;
  lora_path := lora_path values; n_ctx := n_ctx values;
  n_parts := n_parts values; seed := seed values; f16_kv := f16_kv values;
  logits_all := logits_all values; vocab_only := vocab_only values;
  use_mlock := use_mlock values; n_threads := n_threads values;
  n_batch := n_batch values; n_gpu_layers := n_gpu_layers values;
  suffix := suffix values; max_tokens := max_tokens values;
  temperature := temperature values; top_p := top_p values;
  logprobs := logprobs values; echo := echo values; stop := stop values;
  repeat_penalty := repeat_penalty values; top_k := top_k values;
  last_n_tokens_size := last_n_tokens_size values;
  use_mmap := use_mmap values; rope_freq_scale := rope_freq_scale values;
  rope_freq_base := rope_freq_base values;
  model_kwargs := model_kwargs values; streaming := streaming values;
  grammar_path := grammar_path values; grammar := grammar values;
  verbose := verbose values
|}.

Definition with_grammar (g : value) (values : ChatLlamaCpp) : ChatLlamaCpp := {|
  client := client values;
  model_path := model_path values; lora_base := lora_base values;
  lora_path := lora_path values; n_ctx := n_ctx values;
  n_parts := n_parts values; seed := seed values; f16_kv := f16_kv values;
  logits_all := logits_all values; vocab_only := vocab_only values;
  use_mlock := use_mlock values; n_threads := n_threads values;
  n_batch := n_batch values; n_gpu_layers := n_gpu_layers values;
  suffix := suffix values; max_tokens := max_tokens values;
  temperature := temperature values; top_p := top_p values;
  logprobs := logprobs values; echo := echo values; stop := stop values;
  repeat_penalty := repeat_penalty values; top_k := top_k values;
  last_n_tokens_size := last_n_tokens_size values;
  use_mmap := use_mmap values; rope_freq_scale := rope_freq_scale values;
  rope_freq_base := rope_freq_base values;
  model_kwargs := model_kwargs values; streaming := streaming values;
  grammar_path := grammar_path values; grammar := g;
  verbose := verbose values
|}.

Definition with_streaming (b : bool) (values : ChatLlamaCpp) : ChatLlamaCpp := {|
  client := client values;
  model_path := model_path values; lora_base := lora_base values;
  lora_path := lora_path values; n_ctx := n_ctx values;
  n_parts := n_parts values; seed := seed values; f16_kv := f16_kv values;
  logits_all := logits_all values; vocab_only := vocab_only values;
  use_mlock := use_mlock values; n_threads := n_threads values;
  n_batch := n_batch values; n_gpu_layers := n_gpu_layers values;
  suffix := suffix values; max_tokens := max_tokens values;
  temperature := temperature values; top_p := top_p values;
  logprobs := logprobs values; echo := echo values; stop := stop values;
  repeat_penalty := repeat_penalty values; top_k := top_k values;
  last_n_tokens_size := last_n_tokens_size values;
  use_mmap := use_mmap values; rope_freq_scale := rope_freq_scale values;
  rope_freq_base := rope_freq_base values;
  model_kwargs := model_kwargs values; streaming := b;
  grammar_path := grammar_path values; grammar := grammar values;
  verbose := verbose values
|}.

(** [values[k]] for the names that [validate_environment] reads. *)
Definition values_getitem (values : ChatLlamaCpp) (k : string) : result value :=
  if String.eqb k "rope_freq_scale" then Ok (VFloat (rope_freq_scale values))
  else if String.eqb k "rope_freq_base" then Ok (VFloat (rope_freq_base values))
  else if String.eqb k "lora_path" then Ok (of_option VStr (lora_path values))
  else if String.eqb k "lora_base" then Ok (of_option VStr (lora_base values))
  else if String.eqb k "n_ctx" then Ok (VInt (n_ctx values))
  else if String.eqb k "n_parts" then Ok (VInt (n_parts values))
  else if String.eqb k "seed" then Ok (VInt (seed values))
  else if String.eqb k "f16_kv" then Ok (VBool (f16_kv values))
  else if String.eqb k "logits_all" then Ok (VBool (logits_all values))
  else if String.eqb k "vocab_only" then Ok (VBool (vocab_only values))
  else if String.eqb k "use_mlock" then Ok (VBool (use_mlock values))
  else if String.eqb k "n_threads" then Ok (of_option VInt (n_threads values))
  else if String.eqb k "n_batch" then Ok (of_option VInt (n_batch values))
  else if String.eqb k "use_mmap" then Ok (of_option VBool (use_mmap values))
  else if String.eqb k "last_n_tokens_size" then
    Ok (of_option VInt (last_n_tokens_size values))
  else if String.eqb k "verbose" then Ok (VBool (verbose values))
  else if String.eqb k "n_gpu_layers" then Ok (of_option VInt (n_gpu_layers values))
  else if String.eqb k "model_path" then Ok (VStr (model_path values))
  else if String.eqb k "model_kwargs" then Ok (VDict (model_kwargs values))
  else if String.eqb k "grammar" then Ok (grammar values)
  else if String.eqb k "grammar_path" then Ok (grammar_path values)
  else Raise (KeyError k).

Definition model_param_names : list string :=
  [ "rope_freq_scale"; "rope_freq_base"; "lora_path"; "lora_base"; "n_ctx";
    "n_parts"; "seed"; "f16_kv"; "logits_all"; "vocab_only"; "use_mlock";
    "n_threads"; "n_batch"; "use_mmap"; "last_n_tokens_size"; "verbose" ].

(** ** Construction: [validate_environment] (lines 158-217) *)

(** [import_llama_cpp] is [None] when [from llama_cpp import ...] fails. *)
Definition validate_environment (import_llama_cpp : option llama_cpp)
    (values : ChatLlamaCpp) : result ChatLlamaCpp :=
  match import_llama_cpp with
  | None => Raise ImportError
  | Some lib =>
      let model_path := model_path values in
      items ← mapM (λ k, v ← values_getitem values k; mret (k, v)) model_param_names;
      let model_params : gmap string value := list_to_map items in
      (* For backwards compatibility, only include if non-null. *)
      let model_params :=
        match n_gpu_layers values with
        | Some n => <["n_gpu_layers" := VInt n]> model_params
        | None => model_params
        end in
      let model_params := model_kwargs values ∪ model_params in
      match Llama_init lib model_path model_params with
      | Raise _ => Raise (ValueError (ModelLoadFailed model_path))
      | Ok session =>
          let values := with_client session values in
          if truthy (grammar values) && truthy (grammar_path values) then
            Raise (ValueError GrammarConflict)
          else
            match grammar values with
            | VStr s =>
                g ← LlamaGrammar_from_string lib s;
                mret (with_grammar g values)
            | _ =>
                if truthy (grammar_path values) then
                  g ← LlamaGrammar_from_file lib (grammar_path values);
                  mret (with_grammar g values)
                else mret values
            end
      end
  end.

(** ** Call parameters (lines 219-235 and 565-579) *)

(** The [_default_params] property: a fresh dictionary at every access. *)
Definition _default_params (self : ChatLlamaCpp) : gmap string value :=
  let params : gmap string value :=
    list_to_map
      [ ("max_tokens", of_option VInt (max_tokens self));
        ("temperature", of_option VFloat (temperature self));
        ("top_p", of_option VFloat (top_p self));
        ("top_k", of_option VInt (top_k self));
        ("logprobs", of_option VInt (logprobs self));
        ("stop_sequences", of_option of_strings (stop self));
        ("repeat_penalty", of_option VFloat (repeat_penalty self)) ] in
  if truthy (grammar self) then <["grammar" := grammar self]> params
  else params.

(** [d.pop(key)] *)
Definition pop (d : gmap string value) (key : string)
    : result (value * gmap string value) :=
  match d !! key with
  | Some v => Ok (v, delete key d)
  | None => Raise (KeyError key)
  end.

(** [self.stop or []] *)
Definition stop_or_empty (self : ChatLlamaCpp) : value :=
  if truthy (of_option of_strings (stop self)) then of_option of_strings (stop self)
  else VList [].

Definition _get_parameters (self : ChatLlamaCpp) : result (gmap string value) :=
  let params := _default_params self in
  (* llama_cpp expects the "stop" key not this, so we remove it: *)
  '(_, params) ← pop params "stop_sequences";
  (* then sets it as configured, or default to an empty list: *)
  let params := <["stop" := stop_or_empty self]> params in
  mret params.

(** The [_identifying_params] and [_llm_type] properties (lines 544-563). *)
Definition _identifying_params (self : ChatLlamaCpp) : gmap string value :=
  _default_params self ∪ {[ "model_path" := VStr (model_path self) ]}.

Definition _llm_type (self : ChatLlamaCpp) : string := "llama-cpp-python".

(** ** Messages, generations and results *)

Inductive role := system | user | assistant | tool.

Definition role_name (r : role) : string :=
  match r with
  | system => "system"
  | user => "user"
  | assistant => "assistant"
  | tool => "tool"
  end.

(** A framework message; [msg_role] also stands for the runtime subtype of
    a message chunk ([assistant] for [AIMessageChunk]). *)
Record BaseMessage := {
  msg_role : role;
  content : value
}.

Record ChatGeneration := {
  message : BaseMessage;
  generation_info : option (gmap string value)
}.

(** A [ChatGenerationChunk] has the fields of a [ChatGeneration]. *)
Abbreviation ChatGenerationChunk := ChatGeneration (only parsing).

Record ChatResult := {
  generations : list ChatGeneration;
  llm_output : option (gmap string value)
}.

(** Modelled from the spec: [_convert_message_to_dict] is imported from
    [langchain_community.chat_models.chat_models.base], which is not among
    the sources.  "Each message is translated to a role/content
    dictionary." *)
Definition _convert_message_to_dict (m : BaseMessage) : value :=
  VDict (list_to_map [("role", VStr (role_name (msg_role m))); ("content", content m)]).

(** Modelled from the spec: [_convert_dict_to_message] is imported from
    the same missing module.  The adapter hands it the text of a native
    choice, and the message it returns has that text as its content ("for
    response [{choices: [{text: hello, ...}]}] the result has exactly one
    generation with message content hello"); generated text is an
    assistant message. *)
Definition _convert_dict_to_message (text : value) : BaseMessage :=
  {| msg_role := assistant; content := text |}.

Definition role_of_name (s : string) : option role :=
  if String.eqb s "system" then Some system
  else if String.eqb s "user" then Some user
  else if String.eqb s "assistant" then Some assistant
  else if String.eqb s "tool" then Some tool
  else None.

(** Modelled from the spec: [_convert_delta_to_message_chunk] is imported
    from the same missing module.  "Each surfaced chunk carries the
    incremental message content (tagged as an assistant-message
    fragment)", and "native streaming deltas may omit role fields after the
    first chunk": the subtype is the one the delta's role names, and the
    default class handed in otherwise; an absent or null content is the
    empty string. *)
Definition _convert_delta_to_message_chunk (delta : value) (default_class : role)
    : BaseMessage :=
  match delta with
  | VDict d =>
      {| msg_role :=
           match d !! "role" with
           | Some (VStr r) => default default_class (role_of_name r)
           | _ => default_class
           end;
         content :=
           match d !! "content" with
           | Some c => if truthy c then c else VStr EmptyString
           | None => VStr EmptyString
           end |}
  | _ => {| msg_role := default_class; content := VStr EmptyString |}
  end.

Definition _create_message_dicts (messages : list BaseMessage) : list value :=
  _convert_message_to_dict <$> messages.

(** ** Non-streaming translation: [_create_chat_result] (lines 244-261) *)

(** The body of the loop over [response["choices"]]. *)
Definition create_generation (res : value) : result ChatGeneration :=
  text ← getitem res "text";
  let message := _convert_dict_to_message text in
  finish_reason ← dict_get res "finish_reason" VNone;
  let generation_info : gmap string value := {[ "finish_reason" := finish_reason ]} in
  has_logprobs ← contains res "logprobs";
  generation_info ←
    (if has_logprobs : bool then
       lp ← getitem res "logprobs";
       mret (<["logprobs" := lp]> generation_info)
     else mret generation_info);
  mret {| message := message; generation_info := Some generation_info |}.

Definition _create_chat_result (response : value) : result ChatResult :=
  choices ← getitem response "choices";
  choices ← iterate choices;
  generations ← mapM create_generation choices;
  token_usage ← dict_get response "usage" (VDict ∅);
  let llm_output : gmap string value := {[ "token_usage" := token_usage ]} in
  mret {| generations := generations; llm_output := Some llm_output |}.

(** ** Streams *)

(** A generator run to its end: the chunks it yielded, in order, and the
    exception that ended it, if one did. *)
Record stream_run := {
  yielded : list ChatGenerationChunk;
  failure : option exn
}.

Definition yield (c : ChatGenerationChunk) (rest : stream_run) : stream_run :=
  {| yielded := c :: yielded rest; failure := failure rest |}.

Definition stop_iteration : stream_run := {| yielded := []; failure := None |}.

Definition abort (e : exn) : stream_run := {| yielded := []; failure := Some e |}.

(** The callback manager of a run; only [on_llm_new_token] is used. *)
Record CallbackManagerForLLMRun := {
  on_llm_new_token : string → ChatGenerationChunk → value → result unit
}.

(** [chunk.text] *)
Definition text (c : ChatGenerationChunk) : string :=
  match content (message c) with VStr s => s | _ => EmptyString end.

(** [event.model_dump()] when the event is not a dictionary. *)
Definition as_dict (chunk : value) : result value :=
  match chunk with
  | VDict _ => Ok chunk
  | VObj _ attrs => Ok (VDict attrs)
  | _ => Raise AttributeError
  end.

(** One iteration of the loop of [_stream] (lines 298-321): [Ok None] is a
    [continue], [Ok (Some c)] reaches [yield c].  The counter the loop
    increments is never read, and is left out. *)
Definition stream_step (run_manager : option CallbackManagerForLLMRun)
    (default_chunk_class : role) (chunk : value)
    : result (option ChatGenerationChunk) :=
  chunk ← as_dict chunk;
  choices ← getitem chunk "choices";
  n ← len choices;
  if Nat.eqb n 0 then mret None
  else
    choice ← getidx choices 0;
    delta ← getitem choice "delta";
    if is_None delta then mret None
    else
      let chunk := _convert_delta_to_message_chunk delta default_chunk_class in
      let generation_info : gmap string value := ∅ in
      finish_reason ← dict_get choice "finish_reason" VNone;
      let generation_info :=
        if truthy finish_reason
        then <["finish_reason" := finish_reason]> generation_info
        else generation_info in
      logprobs ← dict_get choice "logprobs" VNone;
      let generation_info :=
        if truthy logprobs then <["logprobs" := logprobs]> generation_info
        else generation_info in
      let chunk :=
        {| message := chunk;
           generation_info :=
             if truthy (VDict generation_info) then Some generation_info
             else None |} in
      _ ← match run_manager with
          | Some rm => on_llm_new_token rm (text chunk) chunk logprobs
          | None => mret ()
          end;
      mret (Some chunk).

(** The [for chunk in result] loop; [default_chunk_class] is reassigned to
    the class of every chunk built. *)
Fixpoint stream_loop (run_manager : option CallbackManagerForLLMRun)
    (default_chunk_class : role) (events : list value) : stream_run :=
  match events with
  | [] => stop_iteration
  | chunk :: events =>
      match stream_step run_manager default_chunk_class chunk with
      | Raise e => abort e
      | Ok None => stream_loop run_manager default_chunk_class events
      | Ok (Some c) =>
          yield c (stream_loop run_manager (msg_role (message c)) events)
      end
  end.

Definition client_of (self : ChatLlamaCpp) : result Llama :=
  match client self with
  | Some c => Ok c
  | None => Raise AttributeError
  end.

(** ** Streaming generation: [_stream] (lines 281-321) *)

Definition _stream (self : ChatLlamaCpp) (messages : list BaseMessage)
    (stop : option (list string))
    (run_manager : option CallbackManagerForLLMRun)
    (kwargs : gmap string value) : stream_run :=
  let result :=
    (* kwargs after the defaults: the later entry of a key wins *)
    configured ← _get_parameters self;
    let params := kwargs ∪ configured in
    let message_dicts := _create_message_dicts messages in
    session ← client_of self;
    kw ← keywords {[ "messages" := VList message_dicts;
                     "stream" := VBool true ]} params;
    result ← create_chat_completion session kw;
    iterate result in
  match result with
  | Raise e => abort e
  | Ok events => stream_loop run_manager assistant events
  end.

(** ** Aggregation of a stream (langchain_core) *)

(** The functions of [langchain_core] (0.3) that [generate_from_stream]
    goes through; message contents are strings or lists of blocks, and
    generation infos are dictionaries of JSON values. *)

(** The entries of a merged dictionary, each the result of merging the
    two values of its key: the dictionary of the values, or the first
    failure (first in the order of the map). *)
Definition collect (entries : gmap string (result value))
    : result (gmap string value) :=
  map_fold (λ k entry merged, merged ← merged; v ← entry; mret (<[k := v]> merged))
    (Ok ∅) entries.

(** [isinstance(v, int)]; a Python [bool] is an [int]. *)
Definition is_int (v : value) : bool :=
  match v with VInt _ | VBool _ => true | _ => false end.

(** The first position of [l] at which [f] holds. *)
Fixpoint position {A} (f : A → bool) (l : list A) : option nat :=
  match l with
  | [] => None
  | x :: l => if f x then Some 0 else S <$> position f l
  end.

(** In [merge_lists] the right element is merged without its [type]
    entry: the merged element has the [type] of the left one, if any. *)
Definition keep_type (left : gmap string value) (merged : value) : value :=
  match merged with
  | VDict m =>
      VDict match left !! "type" with
            | Some t => <["type" := t]> m
            | None => delete "type" m
            end
  | _ => merged
  end.

(** The value that [merge_dicts] leaves under a key that both dictionaries
    have.  [None] gives way to the other value; two values of different
    types are a [TypeError]; strings are concatenated, dictionaries merged
    by [merge_dicts], lists merged by [merge_lists]; two other values must
    be equal (exceptions and objects, which compare by identity, are taken
    as distinct).

    [merge_lists] is the inner loop: an element of the right list that is a
    dictionary with an integer [index] is merged into the first element of
    the result that has the same [index], when there is one, and is
    appended otherwise; looking for it reads the [index] of every element
    of the result. *)
Fixpoint merge_value (left right : value) {struct right} : result value :=
  match left, right with
  | _, VNone => Ok left
  | VNone, _ => Ok right
  | VStr s, VStr t => Ok (VStr (s ++ t))
  | VDict l, VDict r =>
      VDict <$>
      collect (merge (λ right left : option value,
                        match left, right with
                        | Some a, Some b => Some (merge_value a b)
                        | Some a, None => Some (Ok a)
                        | None, Some b => Some (Ok b)
                        | None, None => None
                        end) r l)
  | VList l, VList r =>
      VList <$>
      (fix merge_lists (merged other : list value) {struct other}
           : result (list value) :=
         match other with
         | [] => Ok merged
         | e :: other =>
             merged ←
               match e with
               | VDict d =>
                   match d !! "index" with
                   | Some index =>
                       if is_int index then
                         indices ← mapM (λ e_left, getitem e_left "index") merged;
                         match position (λ i, py_eq i index) indices with
                         | Some to_merge =>
                             match merged !! to_merge with
                             | Some (VDict e_left) =>
                                 new ← merge_value (VDict (delete "type" e_left)) e;
                                 Ok (<[to_merge := keep_type e_left new]> merged)
                             | _ => Raise TypeError
                             end
                         | None => Ok (merged ++ [e])%list
                         end
                       else Ok (merged ++ [e])%list
                   | None => Ok (merged ++ [e])%list
                   end
               | _ => Ok (merged ++ [e])%list
               end;
             merge_lists merged other
         end) l r
  | VBool _, VBool _ | VInt _, VInt _ | VFloat _, VFloat _ =>
      if py_eq left right then Ok left else Raise TypeError
  | _, _ => Raise TypeError
  end.

(** [merge_dicts(left, right)]: the entries of both, and under a key of
    both the merged value. *)
Definition merge_dicts (left right : gmap string value)
    : result (gmap string value) :=
  collect (merge (λ right left : option value,
                    match left, right with
                    | Some a, Some b => Some (merge_value a b)
                    | Some a, None => Some (Ok a)
                    | None, Some b => Some (Ok b)
                    | None, None => None
                    end) right left).

(** [merge_content(first, second)]: text is appended to text, or to the
    last block of a list when that is text; two lists are merged by
    [merge_lists]; an empty text adds no block.  A first content that is
    neither a string nor a list is outside the domain of the function, a
    [TypeError] here. *)
Definition merge_content (first second : value) : result value :=
  match first, second with
  | VStr s, VStr t => Ok (VStr (s ++ t))
  | VStr s, VList l => Ok (VList (VStr s :: l))
  | VList _, VList _ => merge_value first second
  | VList l, _ =>
      match last l, second with
      | Some (VStr u), VStr t => Ok (VList (removelast l ++ [VStr (u ++ t)]))
      | Some (VStr u), _ => Raise TypeError
      | _, VStr EmptyString => Ok first
      | _, _ => Ok (VList (l ++ [second]))
      end
  | _, _ => Raise TypeError
  end.

(** [merge_dicts(left, *others)] and [merge_content(first, *contents)]: the
    others are merged in one after the other. *)
Fixpoint merge_each {A} (f : A → A → result A) (merged : A) (others : list A)
    : result A :=
  match others with
  | [] => Ok merged
  | other :: others => merged ← f merged other; merge_each f merged others
  end.

(** [[chunk.generation_info for chunk in other if chunk.generation_info]] *)
Definition truthy_infos (infos : list (option (gmap string value)))
    : list (gmap string value) :=
  omap (λ info, info ← info; if truthy (VDict info) then Some info else None) infos.

(** [ChatGenerationChunk.__add__] with a list of chunks: the generation
    infos are merged first, then the messages; the message has the class
    of the first. *)
Definition chunk_add (self : ChatGenerationChunk) (other : list ChatGenerationChunk)
    : result ChatGenerationChunk :=
  generation_info ←
    merge_each merge_dicts (default ∅ (generation_info self))
      (truthy_infos (generation_info <$> other));
  merged ←
    merge_each merge_content (content (message self))
      ((λ chunk, content (message chunk)) <$> other);
  mret {| message := {| msg_role := msg_role (message self); content := merged |};
          generation_info :=
            if truthy (VDict generation_info) then Some generation_info else None |}.

(** What [generate_from_stream] raises on a stream without chunks. *)
Definition no_generations : exn := Raised "No generations found in stream.".

(** [generate_from_stream] of [langchain_core.language_models.chat_models]:
    the stream is consumed to its end, so that an exception of the stream
    is raised before anything is merged, and the chunks after the first
    are added to the first, which gives the single generation of the
    result; an empty stream is an error. *)
Definition generate_from_stream (stream : stream_run) : result ChatResult :=
  match failure stream with
  | Some e => Raise e
  | None =>
      match yielded stream with
      | [] => Raise no_generations
      | generation :: rest =>
          generation ← chunk_add generation rest;
          mret {| generations :=
                    [ {| message := message generation;
                         generation_info := generation_info generation |} ];
                  llm_output := None |}
      end
  end.

(** ** Non-streaming generation: [_generate] (lines 263-279) *)

(** The stop argument is read in neither branch, and is not handed to
    [_stream].  Python binds the names [messages], [stop] and
    [run_manager] to the parameters, so [kwargs] has none of them. *)

Definition _generate (self : ChatLlamaCpp) (messages : list BaseMessage)
    (stop : option (list string))
    (run_manager : option CallbackManagerForLLMRun)
    (kwargs : gmap string value) : result ChatResult :=
  if streaming self then
    let stream_iter := _stream self messages None run_manager kwargs in
    generate_from_stream stream_iter
  else
    configured ← _get_parameters self;
    let params := kwargs ∪ configured in
    let message_dicts := _create_message_dicts messages in
    session ← client_of self;
    kw ← keywords {[ "messages" := VList message_dicts ]} params;
    response ← create_chat_completion session kw;
    _create_chat_result response.

(** ** Tool binding and structured output (lines 323-542) *)

(** What [Runnable.bind] returns: the model and the keyword arguments that
    every later generation call through it receives. *)
Record RunnableBinding := {
  bound : ChatLlamaCpp;
  bound_kwargs : gmap string value
}.

(** A runnable, as a function from its input to its output. *)
Definition Runnable : Type := value → result value.

(** [any(f(x) for x in l)]: stops at the first true element. *)
Fixpoint any_of {A} (f : A → result bool) (l : list A) : result bool :=
  match l with
  | [] => mret false
  | x :: l => b ← f x; if b : bool then mret true else any_of f l
  end.

(** [[x for x in l if f(x)]] *)
Fixpoint filter_by {A} (f : A → result bool) (l : list A) : result (list A) :=
  match l with
  | [] => mret []
  | x :: l =>
      b ← f x;
      rest ← filter_by f l;
      mret (if b : bool then x :: rest else rest)
  end.

(** [first | second] *)
Definition pipe (first second : Runnable) : Runnable :=
  λ input, x ← first input; second x.

(** [RunnableMap(raw=llm)] *)
Definition RunnableMap_raw (llm : Runnable) : Runnable :=
  λ input, raw ← llm input; mret (VDict {[ "raw" := raw ]}).

(** [RunnablePassthrough.assign] over keyword steps: every step runs on the input
    dictionary, and the outputs are added to it. *)
Definition RunnablePassthrough_assign (steps : list (string * Runnable)) : Runnable :=
  λ input,
    match input with
    | VDict d =>
        outputs ← mapM (λ '(k, step), v ← (step : Runnable) input; mret (k, v)) steps;
        mret (VDict (list_to_map outputs ∪ d))
    | _ => Raise (Raised "AssertionError")
    end.

(** [primary.with_fallbacks([fallback], exception_key=key)]: when the
    primary raises, the fallback runs on the input with the exception
    stored under [key]; when the fallback raises too, the first exception
    is raised. *)
Definition with_fallbacks (primary fallback : Runnable) (exception_key : string)
    : Runnable :=
  λ input,
    match input with
    | VDict d =>
        match primary input with
        | Ok output => Ok output
        | Raise first_error =>
            match fallback (VDict (<[exception_key := VExc first_error]> d)) with
            | Ok output => Ok output
            | Raise _ => Raise first_error
            end
        end
    | _ => Raise (Raised "ValueError")
    end.

(** [itemgetter("raw")] *)
Definition itemgetter (key : string) : Runnable := λ input, getitem input key.

(** [isinstance(schema, type) and issubclass(schema, BaseModel)]: a class is
    an object of its metaclass, and the classes deriving from pydantic's
    [BaseModel] are those of [ModelMetaclass]. *)
Definition is_pydantic_class (schema : value) : bool :=
  match schema with
  | VObj cls _ => String.eqb cls "ModelMetaclass"
  | _ => false
  end.

Section ToolBinding.

(** The collaborators of langchain_core: the schema normaliser, the two
    output parsers (constructor arguments first, then the message to
    parse), and the invocation of a bound model on an input. *)
Variable convert_to_openai_tool : value → result value.
Variable PydanticToolsParser : list value → bool → Runnable.
Variable JsonOutputKeyToolsParser : value → bool → Runnable.
Variable invoke : RunnableBinding → Runnable.

(** [ft["function"]["name"]] *)
Definition function_name (ft : value) : result value :=
  function ← getitem ft "function";
  getitem function "name".

Definition bind_tools (self : ChatLlamaCpp) (tools : list value)
    (tool_choice : value) (kwargs : gmap string value)
    : result RunnableBinding :=
  formatted_tools ← mapM convert_to_openai_tool tools;
  tool_names ← mapM function_name formatted_tools;
  tool_choice ←
    (if truthy tool_choice then
       match tool_choice with
       | VDict _ =>
           found ← any_of (λ name, chosen ← function_name tool_choice;
                                   mret (py_eq chosen name)) tool_names;
           if found : bool then mret tool_choice
           else Raise (ValueError ToolChoiceNotProvided)
       | VStr _ =>
           chosen ← filter_by (λ f, name ← function_name f;
                                    mret (py_eq name tool_choice)) formatted_tools;
           if truthy (VList chosen) then mret tool_choice
           else Raise (ValueError ToolChoiceNotProvided)
       | VBool _ =>
           if Nat.ltb 1 (length formatted_tools) then
             Raise (ValueError (ToolChoiceNotSingle (length tools)))
           else getidx (VList formatted_tools) 0
       | _ => Raise (ValueError ToolChoiceUnrecognized)
       end
     else mret tool_choice);
  let kwargs := <["tool_choice" := tool_choice]> kwargs in
  formatted_tools ← mapM convert_to_openai_tool tools;
  kw ← keywords {[ "tools" := VList formatted_tools ]} kwargs;
  mret {| bound := self; bound_kwargs := kw |}.

(** The parser that [with_structured_output] picks for a schema. *)
Definition output_parser_for (schema : value) : result Runnable :=
  if is_pydantic_class schema then
    mret (PydanticToolsParser [schema] true)
  else
    tool ← convert_to_openai_tool schema;
    key_name ← function_name tool;
    mret (JsonOutputKeyToolsParser key_name true).

Definition with_structured_output (self : ChatLlamaCpp) (schema : value)
    (include_raw : bool) (kwargs : gmap string value) : result Runnable :=
  if truthy (VDict kwargs) then Raise (ValueError UnsupportedArguments)
  else if is_None schema then Raise (ValueError SchemaMissing)
  else
    llm ← bind_tools self [schema] (VBool true) ∅;
    output_parser ← output_parser_for schema;
    if include_raw then
      let parser_assign :=
        RunnablePassthrough_assign
          [ ("parsed", pipe (itemgetter "raw") output_parser);
            ("parsing_error", λ _, mret VNone) ] in
      let parser_none :=
        RunnablePassthrough_assign [ ("parsed", λ _, mret VNone) ] in
      let parser_with_fallback :=
        with_fallbacks parser_assign parser_none "parsing_error" in
      mret (pipe (RunnableMap_raw (invoke llm)) parser_with_fallback)
    else
      mret (pipe (invoke llm) output_parser).

End ToolBinding.

(** ** Sample sessions, responses and collaborators *)

(** The native response of the specification's example, with any usage
    statistics. *)
Definition hello_response (usage : value) : value :=
  VDict {[ "choices" :=
             VList [ VDict {[ "text" := VStr "hello";
                              "finish_reason" := VStr "stop" ]} ];
           "usage" := usage ]}.

(** A choice that carries log-probabilities and no finish reason. *)
Definition logprobs_choice : value :=
  VDict {[ "text" := VStr "hi"; "logprobs" := VList [VInt (-1)] ]}.

(** What [create_generation] builds from the entries of a choice. *)
Definition generation_of (d : gmap string value) (text : value) : ChatGeneration :=
  let info : gmap string value :=
    {[ "finish_reason" := default VNone (d !! "finish_reason") ]} in
  {| message := {| msg_role := assistant; content := text |};
     generation_info :=
       Some match d !! "logprobs" with
            | Some lp => <["logprobs" := lp]> info
            | None => info
            end |}.

(** A choice is translated into a generation: its text is the content of
    the message, its finish reason (or [None]) is in the generation info,
    and its log-probabilities are there exactly when the choice has them. *)
Definition translated (res : value) (g : ChatGeneration) : Prop :=
  ∃ d info,
    res = VDict d
    ∧ d !! "text" = Some (content (message g))
    ∧ generation_info g = Some info
    ∧ info !! "finish_reason" = Some (default VNone (d !! "finish_reason"))
    ∧ info !! "logprobs" = d !! "logprobs".

(** A native choice: a dictionary with a text. *)
Definition is_choice (res : value) : Prop :=
  ∃ d, res = VDict d ∧ is_Some (d !! "text").

(** ** What reaches the native session *)

(** The dictionary [_get_parameters] returns. *)
Definition configured_parameters (self : ChatLlamaCpp) : gmap string value :=
  <["stop" := of_strings (default [] (stop self))]>
    (delete "stop_sequences" (_default_params self)).

(** The keyword arguments of the call that [_generate] makes without
    streaming, and of the call that [_stream] makes. *)
Definition generate_keywords (self : ChatLlamaCpp) (messages : list BaseMessage)
    (kwargs : gmap string value) : gmap string value :=
  {[ "messages" := VList (_create_message_dicts messages) ]}
  ∪ (kwargs ∪ configured_parameters self).

Definition stream_keywords (self : ChatLlamaCpp) (messages : list BaseMessage)
    (kwargs : gmap string value) : gmap string value :=
  {[ "messages" := VList (_create_message_dicts messages); "stream" := VBool true ]}
  ∪ (kwargs ∪ configured_parameters self).

(** ** Streaming events *)

(** The choice list of an event. *)
Definition choices_of (event : value) : list value :=
  match as_dict event with
  | Ok (VDict d) =>
      match d !! "choices" with Some (VList l) => l | _ => [] end
  | _ => []
  end.

(** The delta of the first choice of an event. *)
Definition first_delta (event : value) : option value :=
  match choices_of event with
  | VDict choice :: _ => choice !! "delta"
  | _ => None
  end.

Definition empty_choices (event : value) : bool :=
  Nat.eqb (length (choices_of event)) 0.

Definition null_delta (event : value) : bool :=
  match first_delta event with Some VNone => true | _ => false end.

(** The events that are not skipped. *)
Definition surfaced (event : value) : bool :=
  negb (empty_choices event) && negb (null_delta event).

(** A native streaming event: a dictionary (or an object that dumps to
    one) with a list of choices, the first of which, when there is one, is
    a dictionary with a delta entry. *)
Definition is_event (event : value) : Prop :=
  ∃ d choices,
    as_dict event = Ok (VDict d)
    ∧ d !! "choices" = Some (VList choices)
    ∧ (choices = []
       ∨ ∃ choice rest, choices = VDict choice :: rest ∧ is_Some (choice !! "delta")).

(** The chunk is the one built from the first delta of the event. *)
Definition chunk_of_event (event : value) (c : ChatGenerationChunk) : Prop :=
  ∃ delta default_class,
    first_delta event = Some delta
    ∧ is_None delta = false
    ∧ message c = _convert_delta_to_message_chunk delta default_class.

(** A callback manager whose token callback returns normally. *)
Definition quiet (run_manager : option CallbackManagerForLLMRun) : Prop :=
  ∀ rm, run_manager = Some rm →
    ∀ token c logprobs, on_llm_new_token rm token c logprobs = Ok ().

(** A session that answers every streaming call with the same events. *)
Definition replay (events : list value) : Llama :=
  {| create_chat_completion := λ _, Ok (VList events) |}.

Definition delta_event (text : string) : value :=
  VDict {[ "choices" := VList [ VDict {[ "delta" := VDict {[ "content" := VStr text ]} ]} ] ]}.

Definition empty_event : value := VDict {[ "choices" := VList [] ]}.

Definition null_event : value :=
  VDict {[ "choices" := VList [ VDict {[ "delta" := VNone ]} ] ]}.

Definition sample_events : list value :=
  [ delta_event "he"; empty_event; null_event; delta_event "llo" ].

(** ** Sample configurations and sessions *)

(** An adapter with the given session, streaming flag, stop list and
    grammar fields, and the defaults of the class body for every other
    field. *)
Definition configure (session : option Llama) (streams : bool)
    (stops : option (list string)) (g g_path : value) : ChatLlamaCpp := {|
  client := session;
  model_path := "model.gguf";
  lora_base := None; lora_path := None;
  n_ctx := 512; n_parts := -1; seed := -1;
  f16_kv := true; logits_all := false; vocab_only := false; use_mlock := false;
  n_threads := None; n_batch := Some 8%Z; n_gpu_layers := None;
  suffix := None; max_tokens := Some 256%Z;
  temperature := Some (8 # 10); top_p := Some (95 # 100);
  logprobs := None; echo := Some false;
  stop := stops;
  repeat_penalty := Some (11 # 10); top_k := Some 40%Z;
  last_n_tokens_size := Some 64%Z; use_mmap := Some true;
  rope_freq_scale := 1; rope_freq_base := 10000;
  model_kwargs := ∅;
  streaming := streams;
  grammar_path := g_path;
  grammar := g;
  verbose := true
|}.

Definition sample_model : ChatLlamaCpp :=
  configure (Some (replay sample_events)) true (Some []) VNone VNone.

(** A session whose only choice has, as its text, the stop list it was
    called with. *)
Definition echo_stop : Llama :=
  {| create_chat_completion :=
       λ kw, Ok (VDict {[ "choices" :=
                            VList [ VDict {[ "text" := default VNone (kw !! "stop") ]} ] ]}) |}.

(** A session that answers with two choices, a and b: as one response
    without streaming, and as the two deltas of one event with it. *)
Definition two_choices : Llama :=
  {| create_chat_completion :=
       λ kw,
         match kw !! "stream" with
         | Some (VBool true) =>
             Ok (VList [ VDict {[ "choices" :=
                                    VList [ VDict {[ "delta" := VDict {[ "content" := VStr "a" ]} ]};
                                            VDict {[ "delta" := VDict {[ "content" := VStr "b" ]} ]} ] ]} ])
         | _ =>
             Ok (VDict {[ "choices" :=
                            VList [ VDict {[ "text" := VStr "a" ]};
                                    VDict {[ "text" := VStr "b" ]} ] ]})
         end |}.

(** The contents of the generations of a result. *)
Definition contents (r : result ChatResult) : result (list value) :=
  (λ r, (λ g, content (message g)) <$> generations r) <$> r.

(** An installed library whose sessions load, and one where loading the
    model file fails. *)
Definition working_llama_cpp : llama_cpp :=
  {| Llama_init := λ _ _, Ok (replay []);
     LlamaGrammar_from_string := λ s, Ok (VObj "LlamaGrammar" {[ "source" := VStr s ]});
     LlamaGrammar_from_file := λ p, Ok (VObj "LlamaGrammar" {[ "file" := p ]}) |}.

Definition broken_llama_cpp : llama_cpp :=
  {| Llama_init := λ _ _, Raise (Raised "FileNotFoundError");
     LlamaGrammar_from_string := λ s, Ok (VObj "LlamaGrammar" {[ "source" := VStr s ]});
     LlamaGrammar_from_file := λ p, Ok (VObj "LlamaGrammar" {[ "file" := p ]}) |}.

Definition both_grammars : ChatLlamaCpp :=
  configure None true (Some []) (VStr "root ::= item") (VStr "list.gbnf").

(** The keyword arguments [validate_environment] constructs the session
    with. *)
Definition session_parameters (values : ChatLlamaCpp) : gmap string value :=
  let model_params : gmap string value :=
    list_to_map
      [ ("rope_freq_scale", VFloat (rope_freq_scale values));
        ("rope_freq_base", VFloat (rope_freq_base values));
        ("lora_path", of_option VStr (lora_path values));
        ("lora_base", of_option VStr (lora_base values));
        ("n_ctx", VInt (n_ctx values));
        ("n_parts", VInt (n_parts values));
        ("seed", VInt (seed values));
        ("f16_kv", VBool (f16_kv values));
        ("logits_all", VBool (logits_all values));
        ("vocab_only", VBool (vocab_only values));
        ("use_mlock", VBool (use_mlock values));
        ("n_threads", of_option VInt (n_threads values));
        ("n_batch", of_option VInt (n_batch values));
        ("use_mmap", of_option VBool (use_mmap values));
        ("last_n_tokens_size", of_option VInt (last_n_tokens_size values));
        ("verbose", VBool (verbose values)) ] in
  model_kwargs values
  ∪ match n_gpu_layers values with
    | Some n => <["n_gpu_layers" := VInt n]> model_params
    | None => model_params
    end.

(** ** Sample tools and collaborators *)

(** A normaliser for tools given as a function schema: the canonical
    descriptor around it. *)
Definition wrap_function_schema (t : value) : result value :=
  Ok (VDict {[ "type" := VStr "function"; "function" := t ]}).

Definition answer_schema : value :=
  VDict {[ "name" := VStr "Answer"; "parameters" := VDict ∅ ]}.

Definition search_schema : value :=
  VDict {[ "name" := VStr "Search"; "parameters" := VDict ∅ ]}.

(** Parsers that reject every message, and a bound model that answers
    every input with the same message. *)
Definition failing_parser : Runnable := λ _, Raise (Raised "OutputParserException").

Definition sample_reply : value :=
  VObj "AIMessage" {[ "content" := VStr "no tool call" ]}.

Definition sample_invoke (llm : RunnableBinding) : Runnable := λ _, Ok sample_reply.

(** The types of [tool_choice] that [bind_tools] recognises. *)
Definition recognized_type (tool_choice : value) : bool :=
  match tool_choice with
  | VDict _ | VStr _ | VBool _ => true
  | _ => false
  end.

(** ** Streams, event by event *)

(** The first choice of an event. *)
Definition first_choice (event : value) : option (gmap string value) :=
  match choices_of event with
  | VDict choice :: _ => Some choice
  | _ => None
  end.

(** The first deltas of the events that are not skipped. *)
Definition surfaced_deltas (events : list value) : list value :=
  omap first_delta (List.filter surfaced events).

(** The deltas converted one after the other, each with the class of the
    message before it as the default class. *)
Fixpoint converted (default_class : role) (deltas : list value) : list BaseMessage :=
  match deltas with
  | [] => []
  | delta :: deltas =>
      let m := _convert_delta_to_message_chunk delta default_class in
      m :: converted (msg_role m) deltas
  end.

(** The generation info of a chunk agrees with the finish reason and the
    log-probabilities of the first choice of its event: each is recorded
    when it is truthy, nothing else is, and there is no info at all when
    neither is. *)
Definition info_of_event (event : value) (c : ChatGenerationChunk) : Prop :=
  ∃ choice,
    first_choice event = Some choice
    ∧ let finish_reason := default VNone (choice !! "finish_reason") in
      let logprobs := default VNone (choice !! "logprobs") in
      (generation_info c = None
       ↔ truthy finish_reason = false ∧ truthy logprobs = false)
      ∧ ∀ info,
          generation_info c = Some info →
          info !! "finish_reason"
          = (if truthy finish_reason then Some finish_reason else None)
          ∧ info !! "logprobs" = (if truthy logprobs then Some logprobs else None)
          ∧ ∀ k, k ≠ "finish_reason" → k ≠ "logprobs" → info !! k = None.

(** Events that the loop of [_stream] cannot read, and the exception each
    ends the stream with. *)
Inductive malformed : value → exn → Prop :=
  | no_choices (d : gmap string value) :
      d !! "choices" = None → malformed (VDict d) (KeyError "choices")
  | no_delta (d choice : gmap string value) (rest : list value) :
      d !! "choices" = Some (VList (VDict choice :: rest)) →
      choice !! "delta" = None →
      malformed (VDict d) (KeyError "delta")
  | no_model_dump (event : value) :
      as_dict event = Raise AttributeError → malformed event AttributeError.

(** A callback manager whose token callback raises [e] on every call. *)
Definition raising (e : exn) : CallbackManagerForLLMRun :=
  {| on_llm_new_token := λ _ _ _, Raise e |}.

(** Sample events with a role, a finish reason and log-probabilities. *)
Definition role_event (r text : string) : value :=
  VDict {[ "choices" :=
             VList [ VDict {[ "delta" := VDict {[ "role" := VStr r;
                                                  "content" := VStr text ]} ]} ] ]}.

Definition final_event (reason : string) : value :=
  VDict {[ "choices" :=
             VList [ VDict {[ "delta" := VDict ∅;
                              "finish_reason" := VStr reason;
                              "logprobs" := VNone ]} ] ]}.

(** A parser that returns the key it was built with, and an invocation
    that fails. *)
Definition key_parser (key_name : value) (first_tool_only : bool) : Runnable :=
  λ _, Ok (VDict {[ "parsed_with" := key_name ]}).

Definition failing_invoke (llm : RunnableBinding) : Runnable :=
  λ _, Raise (Raised "context window exceeded").

(** ** One native answer, streamed and not streamed *)

(** The texts joined in order. *)
Definition joined (texts : list string) : string :=
  foldl (λ acc t, acc ++ t) EmptyString texts.

(** The delta carries the text [s]: the message chunk it is converted to,
    whatever the default class, has the content [s]. *)
Definition delta_text (delta : value) (s : string) : Prop :=
  ∀ default_class,
    content (_convert_delta_to_message_chunk delta default_class) = VStr s.

(** The generation info that the loop of [_stream] gives the chunk of an
    event (lines 309-318). *)
Definition event_info (event : value) : option (gmap string value) :=
  choice ← first_choice event;
  let generation_info : gmap string value := ∅ in
  let finish_reason := default VNone (choice !! "finish_reason") in
  let generation_info :=
    if truthy finish_reason
    then <["finish_reason" := finish_reason]> generation_info
    else generation_info in
  let logprobs := default VNone (choice !! "logprobs") in
  let generation_info :=
    if truthy logprobs then <["logprobs" := logprobs]> generation_info
    else generation_info in
  if truthy (VDict generation_info) then Some generation_info else None.

(** The generation infos of the events that are not skipped, merged the
    way [generate_from_stream] merges the infos of their chunks. *)
Definition streamed_info (events : list value) : result (gmap string value) :=
  match event_info <$> List.filter surfaced events with
  | [] => Ok ∅
  | first :: others =>
      merge_each merge_dicts (default ∅ first) (truthy_infos others)
  end.

(** A session that answers a streaming call with the events, and any
    other call with the response. *)
Definition answering (events : list value) (response : value) : Llama :=
  {| create_chat_completion :=
       λ kw,
         match kw !! "stream" with
         | Some (VBool true) => Ok (VList events)
         | _ => Ok response
         end |}.

(** The answer hello: one choice, streamed as the sample events and a
    final event with the finish reason. *)
Definition hello_events : list value :=
  (sample_events ++ [ final_event "stop" ])%list.

Definition hello_session : Llama :=
  answering hello_events (hello_response (VDict ∅)).

(** A session that streams no event for its empty answer. *)
Definition silent_session : Llama :=
  answering [] (VDict {[ "choices" := VList [ VDict {[ "text" := VStr EmptyString ]} ] ]}).

(** A session whose two streamed deltas, a and b, carry log-probabilities
    that differ, for the answer ab. *)
Definition logprob_event (text : string) (logprob : Q) : value :=
  VDict {[ "choices" :=
             VList [ VDict {[ "delta" := VDict {[ "content" := VStr text ]};
                              "logprobs" := VDict {[ "logprob" := VFloat logprob ]} ]} ] ]}.

Definition logprob_session : Llama :=
  answering [ logprob_event "a" (-1 # 10); logprob_event "b" (-2 # 10) ]
    (VDict {[ "choices" := VList [ VDict {[ "text" := VStr "ab" ]} ] ]}).

(** * Properties *)

(** ** Helper lemmas on the error monad *)

Lemma mapM_result_cons {A B} (f : A → result B) (x : A) (l : list A) :
  mapM f (x :: l) = y ← f x; k ← mapM f l; mret (y :: k).
Proof. reflexivity. Qed.

Lemma bind_Ok {A B} (a : A) (f : A → result B) : Ok a ≫= f = f a.
Proof. reflexivity. Qed.

Lemma mapM_result_Forall2 {A B} (f : A → result B) (R : A → B → Prop)
    (P : A → Prop) (l : list A) :
  (∀ x, P x → ∃ y, f x = Ok y ∧ R x y) →
  Forall P l →
  ∃ k, mapM f l = Ok k ∧ Forall2 R l k.
Proof.
  intros Hf Hl. induction Hl as [|x l Hx _ IH].
  - exists []. split; [reflexivity | constructor].
  - destruct (Hf x Hx) as (y & Hy & HR). destruct IH as (k & Hk & HRk).
    exists (y :: k). split.
    + rewrite mapM_result_cons, Hy. simpl. rewrite Hk. reflexivity.
    + constructor; assumption.
Qed.

(** ** Call parameters *)

Lemma default_params_stop_sequences (self : ChatLlamaCpp) :
  _default_params self !! "stop_sequences" = Some (of_option of_strings (stop self)).
Proof.
  unfold _default_params. destruct (truthy (grammar self)).
  - rewrite lookup_insert_ne by discriminate. reflexivity.
  - reflexivity.
Qed.

Lemma stop_or_empty_spec (self : ChatLlamaCpp) :
  stop_or_empty self = of_strings (default [] (stop self)).
Proof.
  unfold stop_or_empty. destruct (stop self) as [[|s l]|]; reflexivity.
Qed.

Lemma get_parameters_eq (self : ChatLlamaCpp) :
  _get_parameters self
  = Ok (<["stop" := of_strings (default [] (stop self))]>
          (delete "stop_sequences" (_default_params self))).
Proof.
  unfold _get_parameters, pop. rewrite default_params_stop_sequences. simpl.
  rewrite stop_or_empty_spec. reflexivity.
Qed.

(** C6: for every configuration, the parameters prepared for the native
    session hold the stop list under the native key ["stop"] and have no
    entry under the internal key ["stop_sequences"]; every other default
    parameter is passed on unchanged.  The key is renamed, not duplicated. *)
Theorem get_parameters_renames_stop_key (self : ChatLlamaCpp) :
  ∃ params,
    _get_parameters self = Ok params
    ∧ params !! "stop" = Some (of_strings (default [] (stop self)))
    ∧ params !! "stop_sequences" = None
    ∧ _default_params self !! "stop" = None
    ∧ is_Some (_default_params self !! "stop_sequences")
    ∧ ∀ k, k ≠ "stop" → k ≠ "stop_sequences" →
           params !! k = _default_params self !! k.
Proof.
  eexists. split; [apply get_parameters_eq |].
  split; [apply lookup_insert_eq |].
  split; [rewrite lookup_insert_ne by discriminate; apply lookup_delete_eq |].
  split.
  { unfold _default_params. destruct (truthy (grammar self)).
    - rewrite lookup_insert_ne by discriminate. reflexivity.
    - reflexivity. }
  split; [rewrite default_params_stop_sequences; eauto |].
  intros k Hk1 Hk2.
  rewrite lookup_insert_ne by congruence.
  rewrite lookup_delete_ne by congruence. reflexivity.
Qed.

(** ** Non-streaming translation *)

Lemma create_generation_eq (d : gmap string value) (t : value) :
  d !! "text" = Some t →
  create_generation (VDict d) = Ok (generation_of d t).
Proof.
  intros Ht. unfold create_generation, generation_of. simpl. rewrite Ht. simpl.
  destruct (d !! "logprobs") as [lp|] eqn:Hlp.
  - rewrite bool_decide_eq_true_2 by eauto. simpl. reflexivity.
  - rewrite bool_decide_eq_false_2 by (intros [? ?]; discriminate). reflexivity.
Qed.

Lemma generation_of_translated (d : gmap string value) (t : value) :
  d !! "text" = Some t → translated (VDict d) (generation_of d t).
Proof.
  intros Ht. unfold translated, generation_of. simpl.
  eexists d, _. split; [reflexivity |]. split; [exact Ht |].
  split; [reflexivity |].
  destruct (d !! "logprobs") as [lp|] eqn:Hlp.
  - split.
    + rewrite lookup_insert_ne by discriminate. apply lookup_singleton_eq.
    + apply lookup_insert_eq.
  - split.
    + apply lookup_singleton_eq.
    + apply lookup_singleton_ne. discriminate.
Qed.

Lemma create_generation_translated (res : value) :
  is_choice res → ∃ g, create_generation res = Ok g ∧ translated res g.
Proof.
  intros (d & -> & t & Ht). exists (generation_of d t).
  split; [apply create_generation_eq | apply generation_of_translated]; exact Ht.
Qed.

(** C1: the response [{choices: [{text: hello, finish_reason: stop}],
    usage: ...}] is translated into exactly one generation, whose message
    content is hello and whose generation info is the finish reason stop;
    and in general a response whose choices are dictionaries with a text
    gives one generation per choice, in order, each with the text as
    content, the finish reason, and the log-probabilities when the choice
    has them. *)
Theorem create_chat_result_translates_choices :
  (∀ usage,
     _create_chat_result (hello_response usage)
     = Ok {| generations :=
               [ {| message := {| msg_role := assistant; content := VStr "hello" |};
                    generation_info := Some {[ "finish_reason" := VStr "stop" ]} |} ];
             llm_output := Some {[ "token_usage" := usage ]} |})
  ∧ (∀ (response : gmap string value) (choices : list value),
       response !! "choices" = Some (VList choices) →
       Forall is_choice choices →
       ∃ gens,
         _create_chat_result (VDict response)
         = Ok {| generations := gens;
                 llm_output :=
                   Some {[ "token_usage" := default (VDict ∅) (response !! "usage") ]} |}
         ∧ length gens = length choices
         ∧ Forall2 translated choices gens).
Proof.
  split.
  - intros usage. reflexivity.
  - intros response choices Hc Hall.
    destruct (mapM_result_Forall2 create_generation translated is_choice choices
                create_generation_translated Hall) as (gens & Hgens & HR).
    exists gens. split; [| split; [symmetry; eapply Forall2_length; exact HR | exact HR]].
    unfold _create_chat_result. simpl. rewrite Hc. simpl. rewrite Hgens. reflexivity.
Qed.

(** The general part of C1 at a response of two choices, the second with
    log-probabilities and without a finish reason. *)
Lemma create_chat_result_translates_choices_witness :
  ∃ gens,
    _create_chat_result
      (VDict {[ "choices" :=
                  VList [ VDict {[ "text" := VStr "a"; "finish_reason" := VStr "length" ]};
                          logprobs_choice ] ]})
    = Ok {| generations := gens;
            llm_output := Some {[ "token_usage" := VDict ∅ ]} |}
    ∧ length gens = 2
    ∧ Forall2 translated
        [ VDict {[ "text" := VStr "a"; "finish_reason" := VStr "length" ]};
          logprobs_choice ] gens.
Proof.
  refine (proj2 create_chat_result_translates_choices
            {[ "choices" :=
                 VList [ VDict {[ "text" := VStr "a"; "finish_reason" := VStr "length" ]};
                         logprobs_choice ] ]}
            [ VDict {[ "text" := VStr "a"; "finish_reason" := VStr "length" ]};
              logprobs_choice ] _ _).
  - reflexivity.
  - repeat constructor; eexists; (split; [reflexivity | eexists; reflexivity]).
Defined.

(** ** Streaming generation *)

Lemma configured_parameters_fresh (self : ChatLlamaCpp) (k : string) :
  k = "messages" ∨ k = "stream" → configured_parameters self !! k = None.
Proof.
  intros Hk. unfold configured_parameters.
  rewrite lookup_insert_ne by (destruct Hk; subst; discriminate).
  rewrite lookup_delete_ne by (destruct Hk; subst; discriminate).
  unfold _default_params. destruct (truthy (grammar self)).
  - rewrite lookup_insert_ne by (destruct Hk; subst; discriminate).
    destruct Hk; subst; reflexivity.
  - destruct Hk; subst; reflexivity.
Qed.

Lemma keywords_fresh (explicit params : gmap string value) :
  (∀ k, is_Some (explicit !! k) → params !! k = None) →
  keywords explicit params = Ok (explicit ∪ params).
Proof.
  intros Hfresh. unfold keywords. destruct (decide _) as [|Hn]; [reflexivity |].
  exfalso. apply Hn. apply elem_of_equiv_empty_L. intros k.
  rewrite elem_of_intersection, !elem_of_dom. intros [H1 [v H2]].
  rewrite (Hfresh k H1) in H2. discriminate.
Qed.

Lemma stream_dispatch (self : ChatLlamaCpp) (messages : list BaseMessage)
    (stop : option (list string)) (run_manager : option CallbackManagerForLLMRun)
    (kwargs : gmap string value) (session : Llama) :
  client self = Some session →
  kwargs !! "messages" = None →
  kwargs !! "stream" = None →
  _stream self messages stop run_manager kwargs
  = match create_chat_completion session (stream_keywords self messages kwargs)
            ≫= iterate with
    | Raise e => abort e
    | Ok events => stream_loop run_manager assistant events
    end.
Proof.
  intros Hc Hm Hs. unfold _stream. rewrite get_parameters_eq. simpl.
  unfold client_of. rewrite Hc. simpl.
  fold (configured_parameters self).
  rewrite keywords_fresh; [reflexivity |].
  intros k [v Hk].
  assert (k = "messages" ∨ k = "stream") as Hk'.
  { destruct (decide (k = "messages")) as [|H1]; [auto |].
    destruct (decide (k = "stream")) as [|H2]; [auto |].
    rewrite lookup_insert_ne in Hk by congruence.
    rewrite lookup_singleton_ne in Hk by congruence. discriminate. }
  apply lookup_union_None. split.
  - destruct Hk' as [-> | ->]; assumption.
  - apply configured_parameters_fresh; exact Hk'.
Qed.

Lemma is_event_choices (event : value) :
  is_event event →
  ∃ d, as_dict event = Ok (VDict d)
       ∧ d !! "choices" = Some (VList (choices_of event))
       ∧ (choices_of event = []
          ∨ ∃ choice rest delta,
              choices_of event = VDict choice :: rest
              ∧ choice !! "delta" = Some delta).
Proof.
  intros (d & choices & Hd & Hc & Hshape). exists d.
  assert (choices_of event = choices) as ->.
  { unfold choices_of. rewrite Hd, Hc. reflexivity. }
  split; [exact Hd |]. split; [exact Hc |].
  destruct Hshape as [-> | (choice & rest & -> & delta & Hdelta)]; [left | right]; eauto.
Qed.

(** Proves [is_event] for a concrete event. *)
Ltac concrete_event :=
  eexists _, _; split; [reflexivity |]; split; [reflexivity |];
  first [ left; reflexivity
        | right; eexists _, _; split; [reflexivity | eexists; reflexivity] ].

(** One iteration on a native event: an event with no choice or a null
    delta is passed over, any other gives the chunk of its first delta. *)
Lemma stream_step_event (run_manager : option CallbackManagerForLLMRun)
    (default_class : role) (event : value) :
  is_event event → quiet run_manager →
  (surfaced event = false ∧ stream_step run_manager default_class event = Ok None)
  ∨ (surfaced event = true
     ∧ ∃ c, stream_step run_manager default_class event = Ok (Some c)
            ∧ chunk_of_event event c).
Proof.
  intros Hev Hquiet.
  destruct (is_event_choices event Hev) as (d & Hd & Hc & Hshape).
  unfold stream_step. rewrite Hd. simpl. rewrite Hc. simpl.
  unfold surfaced, empty_choices, null_delta, first_delta.
  destruct Hshape as [Hnil | (choice & rest & delta & Hcons & Hdelta)].
  - rewrite Hnil. simpl. left. split; reflexivity.
  - rewrite Hcons. simpl. rewrite Hdelta. simpl.
    destruct (is_None delta) eqn:Hnone.
    + left. destruct delta; try discriminate. split; reflexivity.
    + right. split; [destruct delta; try discriminate; reflexivity |].
      destruct run_manager as [rm|].
      * rewrite (Hquiet rm eq_refl). simpl. eexists. split; [reflexivity |].
        exists delta, default_class. unfold first_delta. rewrite Hcons.
        repeat split; assumption.
      * simpl. eexists. split; [reflexivity |].
        exists delta, default_class. unfold first_delta. rewrite Hcons.
        repeat split; assumption.
Qed.

Lemma stream_loop_events (run_manager : option CallbackManagerForLLMRun)
    (events : list value) :
  Forall is_event events → quiet run_manager →
  ∀ default_class,
    failure (stream_loop run_manager default_class events) = None
    ∧ Forall2 chunk_of_event (List.filter surfaced events)
        (yielded (stream_loop run_manager default_class events)).
Proof.
  intros Hall Hquiet. induction Hall as [|event events Hev _ IH]; intros cls.
  - split; [reflexivity | constructor].
  - simpl.
    destruct (stream_step_event run_manager cls event Hev Hquiet)
      as [[Hskip Hstep] | (Hsurf & c & Hstep & Hchunk)];
      rewrite Hstep; [rewrite Hskip | rewrite Hsurf].
    + apply IH.
    + simpl. destruct (IH (msg_role (message c))) as [Hf Hy].
      split; [exact Hf | constructor; assumption].
Qed.

Lemma filter_surfaced_length (events : list value) :
  length (List.filter surfaced events)
  = length events
    - length (List.filter (λ e, empty_choices e || null_delta e) events).
Proof.
  assert (length (List.filter surfaced events)
          + length (List.filter (λ e, empty_choices e || null_delta e) events)
          = length events) as H; [| lia].
  induction events as [|e events IH]; [reflexivity |].
  simpl. unfold surfaced at 1.
  destruct (empty_choices e), (null_delta e); simpl; lia.
Qed.

(** C2: for every finite sequence of native streaming events (and a
    callback manager, if any, whose callback returns), the stream yields
    exactly one chunk per event that has a choice and a non-null first
    delta, in the order of the events, and ends normally; the number of
    chunks is the number of events minus the number of events with an empty
    choice list or a null delta, so no chunk stands for a skipped event. *)
Theorem stream_yields_surfaced_events (self : ChatLlamaCpp)
    (messages : list BaseMessage) (stop : option (list string))
    (run_manager : option CallbackManagerForLLMRun)
    (kwargs : gmap string value) (session : Llama) (events : list value) :
  client self = Some session →
  kwargs !! "messages" = None →
  kwargs !! "stream" = None →
  create_chat_completion session (stream_keywords self messages kwargs)
  = Ok (VList events) →
  Forall is_event events →
  quiet run_manager →
  failure (_stream self messages stop run_manager kwargs) = None
  ∧ Forall2 chunk_of_event (List.filter surfaced events)
      (yielded (_stream self messages stop run_manager kwargs))
  ∧ length (yielded (_stream self messages stop run_manager kwargs))
    = length events
      - length (List.filter (λ e, empty_choices e || null_delta e) events).
Proof.
  intros Hc Hm Hs Hcall Hall Hquiet.
  rewrite (stream_dispatch self messages stop run_manager kwargs session Hc Hm Hs).
  rewrite Hcall. simpl.
  destruct (stream_loop_events run_manager events Hall Hquiet assistant) as [Hf Hy].
  split; [exact Hf |]. split; [exact Hy |].
  rewrite <- (Forall2_length _ _ _ Hy). apply filter_surfaced_length.
Qed.

(** C2 on four events, of which one has no choice and one a null delta:
    two chunks. *)
Lemma stream_yields_surfaced_events_witness :
  failure (_stream sample_model [] None None ∅) = None
  ∧ Forall2 chunk_of_event [ delta_event "he"; delta_event "llo" ]
      (yielded (_stream sample_model [] None None ∅))
  ∧ length (yielded (_stream sample_model [] None None ∅)) = 4 - 2.
Proof.
  refine (stream_yields_surfaced_events sample_model [] None None ∅
            (replay sample_events) sample_events _ _ _ _ _ _).
  - reflexivity.
  - reflexivity.
  - reflexivity.
  - reflexivity.
  - repeat constructor.
    + eexists _, _. split; [reflexivity |]. split; [reflexivity |].
      right. eexists _, _. split; [reflexivity | eexists; reflexivity].
    + eexists _, _. split; [reflexivity |]. split; [reflexivity |]. left. reflexivity.
    + eexists _, _. split; [reflexivity |]. split; [reflexivity |].
      right. eexists _, _. split; [reflexivity | eexists; reflexivity].
    + eexists _, _. split; [reflexivity |]. split; [reflexivity |].
      right. eexists _, _. split; [reflexivity | eexists; reflexivity].
  - intros rm Hrm. discriminate.
Defined.

(** ** Dispatched parameters *)

Lemma generate_dispatch (self : ChatLlamaCpp) (messages : list BaseMessage)
    (stop : option (list string)) (run_manager : option CallbackManagerForLLMRun)
    (kwargs : gmap string value) (session : Llama) :
  client self = Some session →
  streaming self = false →
  kwargs !! "messages" = None →
  _generate self messages stop run_manager kwargs
  = create_chat_completion session (generate_keywords self messages kwargs)
      ≫= _create_chat_result.
Proof.
  intros Hc Hs Hm. unfold _generate. rewrite Hs, get_parameters_eq. simpl.
  unfold client_of. rewrite Hc. simpl.
  fold (configured_parameters self).
  rewrite keywords_fresh; [reflexivity |].
  intros k [v Hk].
  assert (k = "messages") as ->.
  { destruct (decide (k = "messages")) as [|H1]; [assumption |].
    rewrite lookup_singleton_ne in Hk by congruence. discriminate. }
  apply lookup_union_None. split; [assumption |].
  apply configured_parameters_fresh. left. reflexivity.
Qed.

Lemma configured_parameters_stop (self : ChatLlamaCpp) :
  configured_parameters self !! "stop" = Some (of_strings (default [] (stop self))).
Proof. apply lookup_insert_eq. Qed.

Lemma keywords_override (explicit kwargs configured : gmap string value)
    (k : string) :
  explicit !! k = None →
  (explicit ∪ (kwargs ∪ configured)) !! k
  = match kwargs !! k with Some v => Some v | None => configured !! k end.
Proof.
  intros Hk. rewrite lookup_union_r by exact Hk.
  destruct (kwargs !! k) as [v|] eqn:Hv.
  - apply lookup_union_Some_l. exact Hv.
  - rewrite lookup_union_r by exact Hv. reflexivity.
Qed.

(** Counterexample to C5 as stated: the configured stop list is the empty
    default, the caller asks for the stop sequence END, and the session,
    which answers with the stop list it receives, receives the empty list. *)
Lemma stop_argument_is_not_dispatched :
  _generate (configure (Some echo_stop) false (Some []) VNone VNone)
    [] (Some ["END"]) None ∅
  = Ok {| generations :=
            [ {| message := {| msg_role := assistant; content := VList [] |};
                 generation_info := Some {[ "finish_reason" := VNone ]} |} ];
          llm_output := Some {[ "token_usage" := VDict ∅ ]} |}
  ∧ generate_keywords (configure (Some echo_stop) false (Some []) VNone VNone)
      [] ∅ !! "stop"
    = Some (VList []).
Proof. split; reflexivity. Qed.

(** C5, amended: in every generation call, with or without streaming, the
    keyword arguments that reach the native session are the messages (and
    [stream=True] in a stream), the configured parameters, and the per-call
    overrides merged over them: for every key of the overrides the
    call-site value is dispatched, for every other key the configured one.
    The overrides have no stop entry, because Python binds that keyword to
    the stop parameter; the stop parameter is not read, so every call
    dispatches the configured stop list (the empty list when none is
    configured), whatever stop argument it is given. *)
Theorem dispatched_parameters_merge_overrides (self : ChatLlamaCpp)
    (messages : list BaseMessage) (call_stop : option (list string))
    (run_manager : option CallbackManagerForLLMRun)
    (kwargs : gmap string value) (session : Llama) :
  client self = Some session →
  kwargs !! "messages" = None →
  kwargs !! "stop" = None →
  kwargs !! "stream" = None →
  (streaming self = false →
     _generate self messages call_stop run_manager kwargs
     = create_chat_completion session (generate_keywords self messages kwargs)
         ≫= _create_chat_result)
  ∧ (streaming self = true →
       _generate self messages call_stop run_manager kwargs
       = generate_from_stream (_stream self messages None run_manager kwargs))
  ∧ _stream self messages call_stop run_manager kwargs
    = match create_chat_completion session (stream_keywords self messages kwargs)
              ≫= iterate with
      | Raise e => abort e
      | Ok events => stream_loop run_manager assistant events
      end
  ∧ (∀ k v, kwargs !! k = Some v →
       generate_keywords self messages kwargs !! k = Some v
       ∧ stream_keywords self messages kwargs !! k = Some v)
  ∧ (∀ k, kwargs !! k = None → k ≠ "messages" → k ≠ "stream" →
       generate_keywords self messages kwargs !! k = configured_parameters self !! k
       ∧ stream_keywords self messages kwargs !! k = configured_parameters self !! k)
  ∧ generate_keywords self messages kwargs !! "stop"
    = Some (of_strings (default [] (stop self)))
  ∧ stream_keywords self messages kwargs !! "stop"
    = Some (of_strings (default [] (stop self)))
  ∧ (∀ other_stop,
       _generate self messages other_stop run_manager kwargs
       = _generate self messages call_stop run_manager kwargs
       ∧ _stream self messages other_stop run_manager kwargs
         = _stream self messages call_stop run_manager kwargs).
Proof.
  intros Hc Hm Hstop Hs.
  assert (∀ k, k ≠ "messages" → k ≠ "stream" →
            ({[ "messages" := VList (_create_message_dicts messages);
                "stream" := VBool true ]} : gmap string value) !! k = None) as Hfresh.
  { intros k H1 H2. rewrite lookup_insert_ne by congruence.
    apply lookup_singleton_ne. congruence. }
  split; [intros Hf; apply generate_dispatch; assumption |].
  split; [intros Ht; unfold _generate; rewrite Ht; reflexivity |].
  split; [apply stream_dispatch; assumption |].
  unfold generate_keywords, stream_keywords.
  split; [| split; [| split; [| split]]].
  - intros k v Hk.
    assert (k ≠ "messages") as H1 by congruence.
    assert (k ≠ "stream") as H2 by congruence.
    rewrite !keywords_override, Hk;
      [split; reflexivity | apply Hfresh; assumption
      | apply lookup_singleton_ne; congruence].
  - intros k Hk H1 H2.
    rewrite !keywords_override, Hk;
      [split; reflexivity | apply Hfresh; assumption
      | apply lookup_singleton_ne; congruence].
  - rewrite keywords_override, Hstop, configured_parameters_stop;
      [reflexivity | apply lookup_singleton_ne; discriminate].
  - rewrite keywords_override, Hstop, configured_parameters_stop;
      [reflexivity | apply Hfresh; discriminate].
  - intros other_stop. split; reflexivity.
Qed.

(** C5, amended, at a call with a temperature override and the stop
    argument END, on a model configured with one stop sequence: the
    override and the configured stop list are dispatched, and the call is
    the call without a stop argument. *)
Lemma dispatched_parameters_merge_overrides_witness :
  generate_keywords (configure (Some echo_stop) false (Some ["</s>"]) VNone VNone) []
    {[ "temperature" := VFloat 0 ]} !! "temperature" = Some (VFloat 0)
  ∧ generate_keywords (configure (Some echo_stop) false (Some ["</s>"]) VNone VNone) []
      {[ "temperature" := VFloat 0 ]} !! "stop" = Some (VList [VStr "</s>"])
  ∧ _generate (configure (Some echo_stop) false (Some ["</s>"]) VNone VNone) []
      None None {[ "temperature" := VFloat 0 ]}
    = _generate (configure (Some echo_stop) false (Some ["</s>"]) VNone VNone) []
        (Some ["END"]) None {[ "temperature" := VFloat 0 ]}.
Proof.
  destruct (dispatched_parameters_merge_overrides
              (configure (Some echo_stop) false (Some ["</s>"]) VNone VNone)
              [] (Some ["END"]) None {[ "temperature" := VFloat 0 ]} echo_stop)
    as (_ & _ & _ & Hover & _ & Hstop & _ & Hsame);
    [reflexivity | reflexivity | reflexivity | reflexivity |].
  split; [| split].
  - apply (Hover "temperature" (VFloat 0)). reflexivity.
  - exact Hstop.
  - apply (Hsame None).
Defined.

(** ** Generation through the stream *)

(** One iteration on a native event, with the chunk it builds. *)
Lemma stream_step_chunk (run_manager : option CallbackManagerForLLMRun)
    (default_class : role) (event : value) :
  is_event event → quiet run_manager →
  (surfaced event = false ∧ stream_step run_manager default_class event = Ok None)
  ∨ (surfaced event = true
     ∧ ∃ delta,
         first_delta event = Some delta
         ∧ stream_step run_manager default_class event
           = Ok (Some {| message := _convert_delta_to_message_chunk delta default_class;
                         generation_info := event_info event |})).
Proof.
  intros Hev Hquiet.
  destruct (is_event_choices event Hev) as (d & Hd & Hc & Hshape).
  unfold stream_step. rewrite Hd. simpl. rewrite Hc. simpl.
  unfold surfaced, empty_choices, null_delta, first_delta, event_info, first_choice.
  destruct Hshape as [Hnil | (choice & rest & delta & Hcons & Hdelta)].
  - rewrite Hnil. simpl. left. split; reflexivity.
  - rewrite Hcons. simpl. rewrite Hdelta. simpl.
    destruct (is_None delta) eqn:Hnone.
    + left. destruct delta; try discriminate. split; reflexivity.
    + right. split; [destruct delta; try discriminate; reflexivity |].
      exists delta. split; [reflexivity |].
      destruct run_manager as [rm|]; [rewrite (Hquiet rm eq_refl) |]; reflexivity.
Qed.

(** The run of the loop on native events: the messages and the generation
    infos of its chunks. *)
Lemma stream_loop_run (run_manager : option CallbackManagerForLLMRun)
    (events : list value) :
  Forall is_event events → quiet run_manager →
  ∀ default_class,
    failure (stream_loop run_manager default_class events) = None
    ∧ message <$> yielded (stream_loop run_manager default_class events)
      = converted default_class (surfaced_deltas events)
    ∧ generation_info <$> yielded (stream_loop run_manager default_class events)
      = event_info <$> List.filter surfaced events.
Proof.
  intros Hall Hquiet. induction Hall as [|event events Hev _ IH]; intros cls.
  - repeat split.
  - unfold surfaced_deltas. simpl.
    destruct (stream_step_chunk run_manager cls event Hev Hquiet)
      as [[Hskip Hstep] | (Hsurf & delta & Hdelta & Hstep)];
      rewrite Hstep; [rewrite Hskip | rewrite Hsurf].
    + apply IH.
    + simpl. rewrite Hdelta. simpl.
      destruct (IH (msg_role (_convert_delta_to_message_chunk delta cls)))
        as (Hf & Hm & Hi).
      split; [exact Hf |]. split; f_equal; assumption.
Qed.

Lemma converted_contents (deltas : list value) (texts : list string) :
  Forall2 delta_text deltas texts →
  ∀ default_class,
    content <$> converted default_class deltas = VStr <$> texts.
Proof.
  induction 1 as [|delta s deltas texts Hs _ IH]; intros cls; [reflexivity |].
  simpl. rewrite (Hs cls). f_equal. apply IH.
Qed.

Lemma merge_content_texts (texts : list string) (s : string) :
  merge_each merge_content (VStr s) (VStr <$> texts)
  = Ok (VStr (foldl (λ acc t, acc ++ t) s texts)).
Proof.
  revert s. induction texts as [|t texts IH]; intros s; [reflexivity |].
  simpl. apply IH.
Qed.

(** The result of a stream that ended normally, with textual chunks whose
    generation infos merge. *)
Lemma generate_from_stream_texts (stream : stream_run) (texts : list string)
    (info : gmap string value) :
  failure stream = None →
  (λ c, content (message c)) <$> yielded stream = VStr <$> texts →
  texts ≠ [] →
  match generation_info <$> yielded stream with
  | [] => Ok ∅
  | first :: others =>
      merge_each merge_dicts (default ∅ first) (truthy_infos others)
  end = Ok info →
  contents (generate_from_stream stream) = Ok [VStr (joined texts)].
Proof.
  intros Hf Hc Hne Hi. unfold generate_from_stream. rewrite Hf.
  destruct (yielded stream) as [|first rest]; destruct texts as [|t texts];
    try discriminate; [congruence |].
  rewrite !fmap_cons in Hc. rewrite fmap_cons in Hi. cbv beta iota in Hi.
  injection Hc as Ht Hrest.
  unfold chunk_add. rewrite Hi, bind_Ok, Ht, Hrest, merge_content_texts.
  reflexivity.
Qed.

(** The result of the call without streaming on a response of one choice. *)
Lemma create_chat_result_single (response choice : gmap string value) (t : value) :
  response !! "choices" = Some (VList [VDict choice]) →
  choice !! "text" = Some t →
  contents (_create_chat_result (VDict response)) = Ok [t].
Proof.
  intros Hc Ht. unfold _create_chat_result, getitem. rewrite Hc, bind_Ok.
  unfold iterate. rewrite bind_Ok, mapM_result_cons.
  rewrite (create_generation_eq choice t Ht). reflexivity.
Qed.

(** Counterexample to C3 as stated: for the session that answers with two
    choices, the caller sees one generation with streaming and two without. *)
Lemma streaming_content_differs :
  contents (_generate (configure (Some two_choices) true (Some []) VNone VNone)
              [] None None ∅)
  = Ok [VStr "a"]
  ∧ contents (_generate (configure (Some two_choices) false (Some []) VNone VNone)
                [] None None ∅)
    = Ok [VStr "a"; VStr "b"].
Proof. split; reflexivity. Qed.

(** The mode matters, too, for a session that streams no delta for an
    empty answer: "No generations found" with streaming, the empty text
    without. *)
Lemma streaming_needs_a_delta :
  contents (_generate (configure (Some silent_session) true (Some []) VNone VNone)
              [] None None ∅)
  = Raise no_generations
  ∧ contents (_generate (configure (Some silent_session) false (Some []) VNone VNone)
                [] None None ∅)
    = Ok [VStr EmptyString].
Proof. split; reflexivity. Qed.

(** And for a session whose streamed log-probabilities do not merge: a
    [TypeError] with streaming, the text without. *)
Lemma streaming_needs_infos_that_merge :
  contents (_generate (configure (Some logprob_session) true (Some []) VNone VNone)
              [] None None ∅)
  = Raise TypeError
  ∧ contents (_generate (configure (Some logprob_session) false (Some []) VNone VNone)
                [] None None ∅)
    = Ok [VStr "ab"].
Proof. split; reflexivity. Qed.

(** C3, amended: with [streaming=True], [_generate] runs the streaming path
    (for the same messages, callback manager and overrides) to its end and
    aggregates its chunks: an exception of the stream is raised, a stream
    without chunks is an error, and a result, when the chunks merge into
    one, has exactly one generation.  The content is the same in both modes
    for a native session that answers with a single choice: when the
    streamed events are well formed, at least one is not skipped, the token
    callback returns, the finish reasons and log-probabilities of the
    streamed choices merge, and the text of the one choice of the response
    is the texts of the streamed deltas joined in order, the caller sees
    that text as the one content, with and without streaming. *)
Theorem generate_aggregates_stream (self : ChatLlamaCpp)
    (messages : list BaseMessage) (call_stop : option (list string))
    (run_manager : option CallbackManagerForLLMRun)
    (kwargs : gmap string value) :
  streaming self = true →
  _generate self messages call_stop run_manager kwargs
  = generate_from_stream (_stream self messages None run_manager kwargs)
  ∧ (∀ e, failure (_stream self messages None run_manager kwargs) = Some e →
       _generate self messages call_stop run_manager kwargs = Raise e)
  ∧ (_stream self messages None run_manager kwargs = stop_iteration →
       _generate self messages call_stop run_manager kwargs
       = Raise no_generations)
  ∧ (∀ r, _generate self messages call_stop run_manager kwargs = Ok r →
       ∃ g, r = {| generations := [g]; llm_output := None |})
  ∧ (∀ (session : Llama) (events : list value) (texts : list string)
       (info response choice : gmap string value),
       client self = Some session →
       kwargs !! "messages" = None →
       kwargs !! "stream" = None →
       create_chat_completion session (stream_keywords self messages kwargs)
       = Ok (VList events) →
       Forall is_event events →
       quiet run_manager →
       Forall2 delta_text (surfaced_deltas events) texts →
       texts ≠ [] →
       streamed_info events = Ok info →
       create_chat_completion session (generate_keywords self messages kwargs)
       = Ok (VDict response) →
       response !! "choices" = Some (VList [VDict choice]) →
       choice !! "text" = Some (VStr (joined texts)) →
       contents (_generate self messages call_stop run_manager kwargs)
       = Ok [VStr (joined texts)]
       ∧ contents (_generate (with_streaming false self) messages call_stop
                     run_manager kwargs)
         = Ok [VStr (joined texts)]).
Proof.
  intros Hs.
  assert (_generate self messages call_stop run_manager kwargs
          = generate_from_stream (_stream self messages None run_manager kwargs))
    as Hgen by (unfold _generate; rewrite Hs; reflexivity).
  split; [exact Hgen |]. rewrite Hgen.
  split; [intros e He; unfold generate_from_stream; rewrite He; reflexivity |].
  split; [intros ->; reflexivity |].
  split.
  - intros r. unfold generate_from_stream.
    destruct (failure _); [discriminate |].
    destruct (yielded _) as [|first rest]; [discriminate |].
    destruct (chunk_add first rest) as [generation|]; [| discriminate].
    intros [= <-]. eexists. reflexivity.
  - intros session events texts info response choice
      Hc Hm Hst Hevents Hall Hquiet Htexts Hne Hinfo Hresponse Hchoices Htext.
    split.
    + rewrite (stream_dispatch self messages None run_manager kwargs session Hc Hm Hst).
      rewrite Hevents. simpl.
      destruct (stream_loop_run run_manager events Hall Hquiet assistant)
        as (Hf & Hmsg & Hinfos).
      apply (generate_from_stream_texts _ texts info Hf); [| exact Hne |].
      * rewrite (list_fmap_compose message content), Hmsg.
        apply converted_contents. exact Htexts.
      * rewrite Hinfos. exact Hinfo.
    + rewrite (generate_dispatch (with_streaming false self) messages call_stop
                 run_manager kwargs session Hc eq_refl Hm).
      change (generate_keywords (with_streaming false self) messages kwargs)
        with (generate_keywords self messages kwargs).
      rewrite Hresponse. simpl.
      apply (create_chat_result_single response choice _ Hchoices Htext).
Qed.

(** C3, amended, on the session that answers hello: the deltas he and llo
    and the empty delta of the final event give the content hello, which
    is the content without streaming. *)
Lemma generate_aggregates_stream_witness :
  contents (_generate (configure (Some hello_session) true (Some []) VNone VNone)
              [] None None ∅)
  = Ok [VStr "hello"]
  ∧ contents (_generate (configure (Some hello_session) false (Some []) VNone VNone)
                [] None None ∅)
    = Ok [VStr "hello"].
Proof.
  destruct (generate_aggregates_stream
              (configure (Some hello_session) true (Some []) VNone VNone)
              [] None None ∅ eq_refl)
    as (_ & _ & _ & _ & Hsame).
  refine (Hsame hello_session hello_events [ "he"; "llo"; EmptyString ]
            {[ "finish_reason" := VStr "stop" ]}
            {[ "choices" :=
                 VList [ VDict {[ "text" := VStr "hello";
                                  "finish_reason" := VStr "stop" ]} ];
               "usage" := VDict ∅ ]}
            {[ "text" := VStr "hello"; "finish_reason" := VStr "stop" ]}
            _ _ _ _ _ _ _ _ _ _ _ _); try reflexivity.
  - repeat constructor; concrete_event.
  - intros rm Hrm. discriminate.
  - repeat constructor; intros cls; reflexivity.
  - discriminate.
Defined.

(** ** Construction *)

Lemma validate_environment_loaded (lib : llama_cpp) (values : ChatLlamaCpp) :
  validate_environment (Some lib) values
  = match Llama_init lib (model_path values) (session_parameters values) with
    | Raise _ => Raise (ValueError (ModelLoadFailed (model_path values)))
    | Ok session =>
        if truthy (grammar values) && truthy (grammar_path values) then
          Raise (ValueError GrammarConflict)
        else
          match grammar values with
          | VStr s =>
              g ← LlamaGrammar_from_string lib s;
              mret (with_grammar g (with_client session values))
          | _ =>
              if truthy (grammar_path values) then
                g ← LlamaGrammar_from_file lib (grammar_path values);
                mret (with_grammar g (with_client session values))
              else mret (with_client session values)
          end
    end.
Proof. reflexivity. Qed.

(** Counterexample to C4 as stated: both grammar fields are set and the
    model file does not load; the error is the one of the failed load. *)
Lemma load_failure_precedes_grammar_conflict :
  truthy (grammar both_grammars) = true
  ∧ truthy (grammar_path both_grammars) = true
  ∧ validate_environment (Some broken_llama_cpp) both_grammars
    = Raise (ValueError (ModelLoadFailed "model.gguf"))
  ∧ kind_of (ValueError (ModelLoadFailed "model.gguf")) = Some ModelLoadError.
Proof. repeat split; reflexivity. Qed.

(** C4, amended: when both the inline grammar and the grammar file path
    are set to non-empty (truthy) values, construction never produces an
    adapter.  It fails with the ConfigurationError of the conflicting
    grammars whenever the native library is importable and the session
    loads, with the ImportError of a missing library, and with the
    ModelLoadError when the session does not load, which is raised before
    the grammar fields are looked at. *)
Theorem both_grammars_never_construct (import_llama_cpp : option llama_cpp)
    (values : ChatLlamaCpp) :
  truthy (grammar values) = true →
  truthy (grammar_path values) = true →
  (∃ e, validate_environment import_llama_cpp values = Raise e)
  ∧ (import_llama_cpp = None →
       validate_environment import_llama_cpp values = Raise ImportError)
  ∧ (∀ lib session,
       import_llama_cpp = Some lib →
       Llama_init lib (model_path values) (session_parameters values) = Ok session →
       validate_environment import_llama_cpp values = Raise (ValueError GrammarConflict)
       ∧ kind_of (ValueError GrammarConflict) = Some ConfigurationError)
  ∧ (∀ lib e,
       import_llama_cpp = Some lib →
       Llama_init lib (model_path values) (session_parameters values) = Raise e →
       validate_environment import_llama_cpp values
       = Raise (ValueError (ModelLoadFailed (model_path values)))).
Proof.
  intros Hg Hp.
  assert (∀ lib session,
            Llama_init lib (model_path values) (session_parameters values) = Ok session →
            validate_environment (Some lib) values = Raise (ValueError GrammarConflict))
    as Hconflict.
  { intros lib session Hload. rewrite validate_environment_loaded, Hload, Hg, Hp.
    reflexivity. }
  assert (∀ lib e,
            Llama_init lib (model_path values) (session_parameters values) = Raise e →
            validate_environment (Some lib) values
            = Raise (ValueError (ModelLoadFailed (model_path values))))
    as Hfailed.
  { intros lib e Hload. rewrite validate_environment_loaded, Hload. reflexivity. }
  split; [| split; [| split]].
  - destruct import_llama_cpp as [lib|]; [| eexists; reflexivity].
    destruct (Llama_init lib (model_path values) (session_parameters values))
      as [session|e] eqn:Hload; eexists; eauto.
  - intros ->. reflexivity.
  - intros lib session -> Hload. split; [eauto | reflexivity].
  - intros lib e -> Hload. eauto.
Qed.

(** C4, amended, on the configuration with both grammars and a library
    whose sessions load. *)
Lemma both_grammars_never_construct_witness :
  validate_environment (Some working_llama_cpp) both_grammars
  = Raise (ValueError GrammarConflict).
Proof.
  destruct (both_grammars_never_construct (Some working_llama_cpp) both_grammars)
    as (_ & _ & Hconflict & _); [reflexivity | reflexivity |].
  apply (Hconflict working_llama_cpp (replay [])); reflexivity.
Defined.

(** ** Tool binding and structured output *)

Lemma mapM_result_length {A B} (f : A → result B) (l : list A) (k : list B) :
  mapM f l = Ok k → length k = length l.
Proof.
  revert k. induction l as [|x l IH]; intros k Hk.
  - inversion Hk. reflexivity.
  - rewrite mapM_result_cons in Hk. destruct (f x) as [y|e]; [| discriminate].
    simpl in Hk. destruct (mapM f l) as [k'|e]; [| discriminate].
    inversion Hk. simpl. rewrite (IH k' eq_refl). reflexivity.
Qed.

Lemma bind_keywords (formatted : list value) (tool_choice : value)
    (kwargs : gmap string value) :
  kwargs !! "tools" = None →
  keywords {[ "tools" := VList formatted ]} (<["tool_choice" := tool_choice]> kwargs)
  = Ok ({[ "tools" := VList formatted ]} ∪ <["tool_choice" := tool_choice]> kwargs).
Proof.
  intros Hk. apply keywords_fresh. intros k [v Hv].
  destruct (decide (k = "tools")) as [-> | Hne].
  - rewrite lookup_insert_ne by discriminate. exact Hk.
  - rewrite lookup_singleton_ne in Hv by congruence. discriminate.
Qed.

Section ToolBindingProperties.

Variable convert_to_openai_tool : value → result value.
Variable PydanticToolsParser : list value → bool → Runnable.
Variable JsonOutputKeyToolsParser : value → bool → Runnable.
Variable invoke : RunnableBinding → Runnable.

(** C7: with [tool_choice=True] and tools that normalise to descriptors
    with a function name, one supplied tool is selected (the tool choice
    bound for later calls is its normalised descriptor), and two or more
    supplied tools fail with the ToolChoiceError of a choice that is not
    single. *)
Theorem tool_choice_true_selects_the_single_tool (self : ChatLlamaCpp)
    (tools formatted names : list value) (kwargs : gmap string value) :
  mapM convert_to_openai_tool tools = Ok formatted →
  mapM function_name formatted = Ok names →
  kwargs !! "tools" = None →
  (length tools = 1 →
     ∃ ft, formatted = [ft]
           ∧ bind_tools convert_to_openai_tool self tools (VBool true) kwargs
             = Ok {| bound := self;
                     bound_kwargs :=
                       {[ "tools" := VList [ft] ]} ∪ <["tool_choice" := ft]> kwargs |})
  ∧ ((2 ≤ length tools)%nat →
       bind_tools convert_to_openai_tool self tools (VBool true) kwargs
       = Raise (ValueError (ToolChoiceNotSingle (length tools)))
       ∧ kind_of (ValueError (ToolChoiceNotSingle (length tools)))
         = Some ToolChoiceError).
Proof.
  intros Hf Hn Hk. pose proof (mapM_result_length _ _ _ Hf) as Hlen. split.
  - intros H1. destruct formatted as [|ft [|]]; simpl in Hlen; try lia.
    exists ft. split; [reflexivity |].
    unfold bind_tools. rewrite Hf, bind_Ok, Hn, bind_Ok. simpl.
    rewrite (bind_keywords [ft] ft kwargs Hk). reflexivity.
  - intros H2. split; [| reflexivity].
    unfold bind_tools. rewrite Hf, bind_Ok, Hn, bind_Ok. simpl.
    destruct (Nat.ltb_spec 1 (length formatted)) as [_ | Hle]; [reflexivity | lia].
Qed.

(** C10: with [tool_choice=True] and no tool, binding does not fail with a
    ToolChoiceError: the check on the number of tools passes, and the
    index into the empty list of normalised tools is out of range. *)
Theorem tool_choice_true_without_tools_is_index_error (self : ChatLlamaCpp)
    (kwargs : gmap string value) :
  bind_tools convert_to_openai_tool self [] (VBool true) kwargs = Raise IndexError
  ∧ kind_of IndexError = None.
Proof. split; reflexivity. Qed.

(** C8, amended: for tools that normalise to descriptors with a function
    name, a truthy [tool_choice] that is neither a dictionary, nor a
    string, nor a boolean fails with the ToolChoiceError of an unrecognised
    type; a falsy one ([None], 0, an empty list) is not validated, and is
    bound as it is. *)
Theorem other_tool_choice_types (self : ChatLlamaCpp)
    (tools formatted names : list value) (tool_choice : value)
    (kwargs : gmap string value) :
  mapM convert_to_openai_tool tools = Ok formatted →
  mapM function_name formatted = Ok names →
  kwargs !! "tools" = None →
  recognized_type tool_choice = false →
  (truthy tool_choice = true →
     bind_tools convert_to_openai_tool self tools tool_choice kwargs
     = Raise (ValueError ToolChoiceUnrecognized)
     ∧ kind_of (ValueError ToolChoiceUnrecognized) = Some ToolChoiceError)
  ∧ (truthy tool_choice = false →
       bind_tools convert_to_openai_tool self tools tool_choice kwargs
       = Ok {| bound := self;
               bound_kwargs :=
                 {[ "tools" := VList formatted ]}
                 ∪ <["tool_choice" := tool_choice]> kwargs |}).
Proof.
  intros Hf Hn Hk Hty. split.
  - intros Ht. split; [| reflexivity].
    unfold bind_tools. rewrite Hf, bind_Ok, Hn, bind_Ok, Ht.
    destruct tool_choice; try discriminate; reflexivity.
  - intros Ht. unfold bind_tools. rewrite Hf, bind_Ok, Hn, bind_Ok, Ht. simpl.
    rewrite (bind_keywords formatted tool_choice kwargs Hk). reflexivity.
Qed.

(** C9: when the bound model answers and the parser of the schema raises
    on the answer, the pipeline built with [include_raw=True] returns the
    record with the raw answer, a null [parsed] and the exception as
    [parsing_error], and the pipeline built with [include_raw=False]
    raises the exception. *)
Theorem structured_output_parsing_failure (self : ChatLlamaCpp)
    (schema input raw : value) (e : exn) (llm : RunnableBinding)
    (output_parser : Runnable) :
  is_None schema = false →
  bind_tools convert_to_openai_tool self [schema] (VBool true) ∅ = Ok llm →
  output_parser_for convert_to_openai_tool PydanticToolsParser
    JsonOutputKeyToolsParser schema = Ok output_parser →
  invoke llm input = Ok raw →
  output_parser raw = Raise e →
  (∃ pipeline,
     with_structured_output convert_to_openai_tool PydanticToolsParser
       JsonOutputKeyToolsParser invoke self schema true ∅ = Ok pipeline
     ∧ pipeline input
       = Ok (VDict {[ "raw" := raw; "parsed" := VNone; "parsing_error" := VExc e ]}))
  ∧ (∃ pipeline,
       with_structured_output convert_to_openai_tool PydanticToolsParser
         JsonOutputKeyToolsParser invoke self schema false ∅ = Ok pipeline
       ∧ pipeline input = Raise e).
Proof.
  intros Hs Hllm Hparser Hraw He. split.
  - eexists. split.
    + unfold with_structured_output. rewrite Hs, Hllm. simpl. rewrite Hparser.
      simpl. reflexivity.
    + unfold pipe, RunnableMap_raw.
      rewrite Hraw, bind_Ok. unfold mret, result_ret. rewrite bind_Ok.
      unfold with_fallbacks. unfold RunnablePassthrough_assign at 1.
      rewrite !mapM_result_cons. unfold itemgetter, getitem.
      rewrite lookup_singleton_eq, !bind_Ok, He. reflexivity.
  - eexists. split.
    + unfold with_structured_output. rewrite Hs, Hllm. simpl. rewrite Hparser.
      simpl. reflexivity.
    + unfold pipe. rewrite Hraw. simpl. exact He.
Qed.

End ToolBindingProperties.

(** C7 on one tool and on two tools. *)
Lemma tool_choice_true_selects_the_single_tool_witness :
  (∃ ft,
     wrap_function_schema answer_schema = Ok ft
     ∧ bind_tools wrap_function_schema sample_model [answer_schema] (VBool true) ∅
       = Ok {| bound := sample_model;
               bound_kwargs :=
                 {[ "tools" := VList [ft] ]} ∪ <["tool_choice" := ft]> ∅ |})
  ∧ bind_tools wrap_function_schema sample_model [answer_schema; search_schema]
      (VBool true) ∅
    = Raise (ValueError (ToolChoiceNotSingle 2)).
Proof.
  split.
  - destruct (tool_choice_true_selects_the_single_tool wrap_function_schema
                sample_model [answer_schema]
                [VDict {[ "type" := VStr "function"; "function" := answer_schema ]}]
                [VStr "Answer"] ∅)
      as [Hone _]; [reflexivity | reflexivity | reflexivity |].
    destruct (Hone eq_refl) as (ft & Hft & Hbind).
    exists ft. split; [injection Hft as <-; reflexivity | exact Hbind].
  - destruct (tool_choice_true_selects_the_single_tool wrap_function_schema
                sample_model [answer_schema; search_schema]
                [VDict {[ "type" := VStr "function"; "function" := answer_schema ]};
                 VDict {[ "type" := VStr "function"; "function" := search_schema ]}]
                [VStr "Answer"; VStr "Search"] ∅)
      as [_ Hmany]; [reflexivity | reflexivity | reflexivity |].
    apply Hmany. simpl. lia.
Defined.

(** Counterexample to C8 as stated: a tool choice of 0, of an empty list,
    or of [None] is of none of the three recognised types, and binding
    succeeds with it. *)
Lemma falsy_tool_choice_is_bound :
  recognized_type (VInt 0) = false
  ∧ bind_tools wrap_function_schema sample_model [answer_schema] (VInt 0) ∅
    = Ok {| bound := sample_model;
            bound_kwargs :=
              {[ "tools" :=
                   VList [VDict {[ "type" := VStr "function";
                                   "function" := answer_schema ]}];
                 "tool_choice" := VInt 0 ]} |}
  ∧ (∃ llm, bind_tools wrap_function_schema sample_model [answer_schema] (VList []) ∅
            = Ok llm)
  ∧ (∃ llm, bind_tools wrap_function_schema sample_model [answer_schema] VNone ∅
            = Ok llm).
Proof.
  split; [reflexivity |]. split; [reflexivity |].
  split; eexists; reflexivity.
Qed.

(** C8, amended, at the tool choices 5 and 0. *)
Lemma other_tool_choice_types_witness :
  bind_tools wrap_function_schema sample_model [answer_schema] (VInt 5) ∅
  = Raise (ValueError ToolChoiceUnrecognized)
  ∧ ∃ llm, bind_tools wrap_function_schema sample_model [answer_schema] (VInt 0) ∅
           = Ok llm.
Proof.
  split.
  - destruct (other_tool_choice_types wrap_function_schema sample_model
                [answer_schema]
                [VDict {[ "type" := VStr "function"; "function" := answer_schema ]}]
                [VStr "Answer"] (VInt 5) ∅)
      as [Htruthy _]; [reflexivity | reflexivity | reflexivity | reflexivity |].
    apply Htruthy. reflexivity.
  - destruct (other_tool_choice_types wrap_function_schema sample_model
                [answer_schema]
                [VDict {[ "type" := VStr "function"; "function" := answer_schema ]}]
                [VStr "Answer"] (VInt 0) ∅)
      as [_ Hfalsy]; [reflexivity | reflexivity | reflexivity | reflexivity |].
    eexists. apply Hfalsy. reflexivity.
Defined.

(** C9 with a parser that rejects the answer of the model. *)
Lemma structured_output_parsing_failure_witness :
  (∃ pipeline,
     with_structured_output wrap_function_schema (λ _ _, failing_parser)
       (λ _ _, failing_parser) sample_invoke sample_model answer_schema true ∅
     = Ok pipeline
     ∧ pipeline (VStr "question")
       = Ok (VDict {[ "raw" := sample_reply; "parsed" := VNone;
                      "parsing_error" := VExc (Raised "OutputParserException") ]}))
  ∧ (∃ pipeline,
       with_structured_output wrap_function_schema (λ _ _, failing_parser)
         (λ _ _, failing_parser) sample_invoke sample_model answer_schema false ∅
       = Ok pipeline
       ∧ pipeline (VStr "question") = Raise (Raised "OutputParserException")).
Proof.
  refine (structured_output_parsing_failure wrap_function_schema
            (λ _ _, failing_parser) (λ _ _, failing_parser) sample_invoke
            sample_model answer_schema (VStr "question") sample_reply
            (Raised "OutputParserException")
            {| bound := sample_model;
               bound_kwargs :=
                 {[ "tools" :=
                      VList [VDict {[ "type" := VStr "function";
                                      "function" := answer_schema ]}];
                    "tool_choice" :=
                      VDict {[ "type" := VStr "function";
                               "function" := answer_schema ]} ]} |}
            failing_parser _ _ _ _ _); reflexivity.
Defined.

(** * Further properties of the code *)

(** ** Construction *)

Lemma default_params_lookup (self : ChatLlamaCpp) (k : string) :
  k ≠ "grammar" →
  _default_params self !! k
  = (list_to_map
       [ ("max_tokens", of_option VInt (max_tokens self));
         ("temperature", of_option VFloat (temperature self));
         ("top_p", of_option VFloat (top_p self));
         ("top_k", of_option VInt (top_k self));
         ("logprobs", of_option VInt (logprobs self));
         ("stop_sequences", of_option of_strings (stop self));
         ("repeat_penalty", of_option VFloat (repeat_penalty self)) ]
     : gmap string value) !! k.
Proof.
  intros Hk. unfold _default_params. destruct (truthy (grammar self)).
  - rewrite lookup_insert_ne by congruence. reflexivity.
  - reflexivity.
Qed.

(** X1: when the library is importable, the session loads and the two
    grammar fields are not both truthy, construction succeeds or fails
    with the grammar compiler: an inline grammar that is a string (even
    the empty one) is compiled with [from_string] and the grammar path is
    not read; otherwise a truthy grammar path is compiled with
    [from_file]; otherwise the fields are returned as they are.  In every
    case only [client] and [grammar] differ from the fields given. *)
Theorem construction_resolves_grammar (lib : llama_cpp) (session : Llama)
    (values : ChatLlamaCpp) :
  Llama_init lib (model_path values) (session_parameters values) = Ok session →
  truthy (grammar values) && truthy (grammar_path values) = false →
  (∀ s, grammar values = VStr s →
     validate_environment (Some lib) values
     = g ← LlamaGrammar_from_string lib s;
       mret (with_grammar g (with_client session values)))
  ∧ ((∀ s, grammar values ≠ VStr s) →
       truthy (grammar_path values) = true →
       validate_environment (Some lib) values
       = g ← LlamaGrammar_from_file lib (grammar_path values);
         mret (with_grammar g (with_client session values)))
  ∧ ((∀ s, grammar values ≠ VStr s) →
       truthy (grammar_path values) = false →
       validate_environment (Some lib) values = Ok (with_client session values))
  ∧ (∀ r, validate_environment (Some lib) values = Ok r →
       client r = Some session
       ∧ model_path r = model_path values
       ∧ grammar_path r = grammar_path values
       ∧ stop r = stop values
       ∧ streaming r = streaming values
       ∧ model_kwargs r = model_kwargs values
       ∧ (∀ k, k ≠ "grammar" → _default_params r !! k = _default_params values !! k)).
Proof.
  intros Hload Hok.
  assert (∀ s, grammar values = VStr s →
            validate_environment (Some lib) values
            = g ← LlamaGrammar_from_string lib s;
              mret (with_grammar g (with_client session values))) as Hstring.
  { intros s Hs. rewrite validate_environment_loaded, Hload, Hok, Hs. reflexivity. }
  assert ((∀ s, grammar values ≠ VStr s) →
          validate_environment (Some lib) values
          = if truthy (grammar_path values) then
              g ← LlamaGrammar_from_file lib (grammar_path values);
              mret (with_grammar g (with_client session values))
            else Ok (with_client session values)) as Hother.
  { intros Hns. rewrite validate_environment_loaded, Hload, Hok.
    destruct (grammar values) eqn:Hg; try reflexivity.
    exfalso. eapply Hns. reflexivity. }
  split; [exact Hstring |].
  split; [intros Hns Hp; rewrite (Hother Hns), Hp; reflexivity |].
  split; [intros Hns Hp; rewrite (Hother Hns), Hp; reflexivity |].
  intros r Hr.
  assert (r = with_client session values
          ∨ ∃ g, r = with_grammar g (with_client session values)) as Hshape.
  { destruct (grammar values) eqn:Hg;
      try (rewrite Hother in Hr by (intros s; congruence);
           destruct (truthy (grammar_path values));
           [ destruct (LlamaGrammar_from_file lib (grammar_path values));
             inversion Hr; eauto
           | inversion Hr; eauto ]).
    rewrite (Hstring s eq_refl) in Hr.
    destruct (LlamaGrammar_from_string lib s); inversion Hr; eauto. }
  destruct Hshape as [-> | [g ->]]; repeat split; try reflexivity.
  intros k Hk. rewrite !default_params_lookup by exact Hk. reflexivity.
Qed.

(** X1 on a configuration with an empty inline grammar and a grammar
    path: the empty grammar is compiled, and the path is not read. *)
Lemma construction_resolves_grammar_witness :
  validate_environment (Some working_llama_cpp)
    (configure None true (Some []) (VStr EmptyString) (VStr "list.gbnf"))
  = Ok (with_grammar (VObj "LlamaGrammar" {[ "source" := VStr EmptyString ]})
          (with_client (replay [])
             (configure None true (Some []) (VStr EmptyString) (VStr "list.gbnf")))).
Proof.
  destruct (construction_resolves_grammar working_llama_cpp (replay [])
              (configure None true (Some []) (VStr EmptyString) (VStr "list.gbnf")))
    as [Hstring _]; [reflexivity | reflexivity |].
  exact (Hstring EmptyString eq_refl).
Defined.

(** X2: the keyword arguments of the session constructor are the sixteen
    allow-listed fields, [n_gpu_layers] only when it is not [None], and the
    entries of [model_kwargs], which are merged last and override a named
    field; the sampling parameters are not among them.  Whatever the
    constructor raises becomes the error of a model that could not be
    loaded, with the path of the model; when the library cannot be
    imported, construction fails with an [ImportError] before any field is
    read. *)
Theorem session_constructor_arguments (values : ChatLlamaCpp) :
  (∀ k v, model_kwargs values !! k = Some v →
     session_parameters values !! k = Some v)
  ∧ (model_kwargs values !! "n_gpu_layers" = None →
       session_parameters values !! "n_gpu_layers" = VInt <$> n_gpu_layers values)
  ∧ (model_kwargs values !! "n_ctx" = None →
       session_parameters values !! "n_ctx" = Some (VInt (n_ctx values)))
  ∧ (∀ k, k ∈ ["temperature"; "top_p"; "top_k"; "max_tokens"; "stop";
                "streaming"; "grammar"; "model_path"] →
       session_parameters values !! k = model_kwargs values !! k)
  ∧ (∀ lib e,
       Llama_init lib (model_path values) (session_parameters values) = Raise e →
       validate_environment (Some lib) values
       = Raise (ValueError (ModelLoadFailed (model_path values))))
  ∧ validate_environment None values = Raise ImportError.
Proof.
  split; [| split; [| split; [| split; [| split; [| reflexivity]]]]].
  - intros k v Hk. unfold session_parameters. apply lookup_union_Some_l. exact Hk.
  - intros Hk. unfold session_parameters. rewrite lookup_union_r by exact Hk.
    destruct (n_gpu_layers values) as [n|]; simpl.
    + apply lookup_insert_eq.
    + reflexivity.
  - intros Hk. unfold session_parameters. rewrite lookup_union_r by exact Hk.
    destruct (n_gpu_layers values) as [n|].
    + rewrite lookup_insert_ne by discriminate. reflexivity.
    + reflexivity.
  - intros k Hk. unfold session_parameters.
    destruct (model_kwargs values !! k) as [v|] eqn:Hv.
    + apply lookup_union_Some_l. exact Hv.
    + rewrite lookup_union_r by exact Hv.
      repeat (apply elem_of_cons in Hk as [-> | Hk];
              [ destruct (n_gpu_layers values);
                rewrite ?lookup_insert_ne by discriminate; reflexivity |]).
      apply elem_of_nil in Hk. contradiction.
  - intros lib e Hload. rewrite validate_environment_loaded, Hload. reflexivity.
Qed.

(** ** Call parameters *)

(** X3: the parameters prepared for a call never fail to be built, and
    their keys are exactly the six sampling parameters and [stop], with
    [grammar] added exactly when the grammar of the adapter is truthy, in
    which case it is that grammar. *)
Theorem get_parameters_keys (self : ChatLlamaCpp) :
  ∃ params,
    _get_parameters self = Ok params
    ∧ dom params
      = {[ "max_tokens"; "temperature"; "top_p"; "top_k"; "logprobs";
           "repeat_penalty"; "stop" ]}
        ∪ (if truthy (grammar self) then {[ "grammar" ]} else ∅)
    ∧ params !! "grammar"
      = (if truthy (grammar self) then Some (grammar self) else None).
Proof.
  eexists. split; [apply get_parameters_eq |]. split.
  - rewrite dom_insert_L, dom_delete_L. unfold _default_params.
    destruct (truthy (grammar self)).
    + rewrite dom_insert_L, dom_list_to_map_L. simpl. set_solver.
    + rewrite dom_list_to_map_L. simpl. set_solver.
  - rewrite lookup_insert_ne by discriminate.
    rewrite lookup_delete_ne by discriminate. unfold _default_params.
    destruct (truthy (grammar self)); [apply lookup_insert_eq | reflexivity].
Qed.

(** X4: the identifying parameters are the default parameters and the
    path of the model; they keep the internal key [stop_sequences] and have
    no [stop] key, unlike the parameters of a call. *)
Theorem identifying_params_entries (self : ChatLlamaCpp) :
  _identifying_params self !! "model_path" = Some (VStr (model_path self))
  ∧ _identifying_params self !! "stop_sequences"
    = Some (of_option of_strings (stop self))
  ∧ _identifying_params self !! "stop" = None
  ∧ (∀ k, k ≠ "model_path" →
       _identifying_params self !! k = _default_params self !! k).
Proof.
  assert (_default_params self !! "model_path" = None) as Hpath
    by (rewrite default_params_lookup by discriminate; reflexivity).
  assert (∀ k, k ≠ "model_path" →
            _identifying_params self !! k = _default_params self !! k) as Hother.
  { intros k Hk. unfold _identifying_params.
    destruct (_default_params self !! k) as [v|] eqn:Hv.
    - apply lookup_union_Some_l. exact Hv.
    - rewrite lookup_union_r by exact Hv. apply lookup_singleton_ne. congruence. }
  split; [| split; [| split]].
  - unfold _identifying_params. rewrite lookup_union_r by exact Hpath.
    apply lookup_singleton_eq.
  - rewrite Hother by discriminate. apply default_params_stop_sequences.
  - rewrite Hother by discriminate.
    rewrite default_params_lookup by discriminate. reflexivity.
  - exact Hother.
Qed.

(** ** Malformed responses *)

Lemma mapM_result_app_Raise {A B} (f : A → result B) (P : A → Prop)
    (pre post : list A) (x : A) (e : exn) :
  (∀ a, P a → ∃ b, f a = Ok b) →
  Forall P pre →
  f x = Raise e →
  mapM f (pre ++ x :: post) = Raise e.
Proof.
  intros Hf Hpre Hx. induction Hpre as [|a pre Ha _ IH].
  - cbn [app]. rewrite mapM_result_cons, Hx. reflexivity.
  - cbn [app]. rewrite mapM_result_cons. destruct (Hf a Ha) as [b ->].
    rewrite bind_Ok, IH. reflexivity.
Qed.

(** X5: [_create_chat_result] raises on a malformed response and returns
    no partial result: [KeyError] for a response without a choices entry
    and for the first choice without a text (whatever the choices after
    it), [TypeError] for a response or a first bad choice that is not a
    dictionary. *)
Theorem create_chat_result_malformed :
  (∀ response : gmap string value,
     response !! "choices" = None →
     _create_chat_result (VDict response) = Raise (KeyError "choices"))
  ∧ (∀ response,
       (∀ d, response ≠ VDict d) →
       _create_chat_result response = Raise TypeError)
  ∧ (∀ (response d : gmap string value) (pre post : list value),
       response !! "choices" = Some (VList (pre ++ VDict d :: post)) →
       Forall is_choice pre →
       d !! "text" = None →
       _create_chat_result (VDict response) = Raise (KeyError "text"))
  ∧ (∀ (response : gmap string value) (pre post : list value) (bad : value),
       response !! "choices" = Some (VList (pre ++ bad :: post)) →
       Forall is_choice pre →
       (∀ d, bad ≠ VDict d) →
       _create_chat_result (VDict response) = Raise TypeError).
Proof.
  assert (∀ a, is_choice a → ∃ b, create_generation a = Ok b) as Hok.
  { intros a Ha. destruct (create_generation_translated a Ha) as (g & Hg & _). eauto. }
  split; [| split; [| split]].
  - intros response Hc. unfold _create_chat_result. simpl. rewrite Hc. reflexivity.
  - intros response Hnd. destruct response; try reflexivity.
    exfalso. eapply Hnd. reflexivity.
  - intros response d pre post Hc Hpre Ht.
    unfold _create_chat_result. simpl. rewrite Hc. simpl.
    rewrite (mapM_result_app_Raise create_generation is_choice pre post (VDict d)
               (KeyError "text") Hok Hpre); [reflexivity |].
    unfold create_generation. simpl. rewrite Ht. reflexivity.
  - intros response pre post bad Hc Hpre Hbad.
    unfold _create_chat_result. simpl. rewrite Hc. simpl.
    rewrite (mapM_result_app_Raise create_generation is_choice pre post bad
               TypeError Hok Hpre); [reflexivity |].
    destruct bad; try reflexivity. exfalso. eapply Hbad. reflexivity.
Qed.

(** X5 on a response whose second choice has no text. *)
Lemma create_chat_result_malformed_witness :
  _create_chat_result
    (VDict {[ "choices" :=
                VList [ VDict {[ "text" := VStr "a" ]};
                        VDict {[ "finish_reason" := VStr "stop" ]};
                        VDict {[ "text" := VStr "c" ]} ] ]})
  = Raise (KeyError "text").
Proof.
  refine (proj1 (proj2 (proj2 create_chat_result_malformed))
            {[ "choices" :=
                 VList [ VDict {[ "text" := VStr "a" ]};
                         VDict {[ "finish_reason" := VStr "stop" ]};
                         VDict {[ "text" := VStr "c" ]} ] ]}
            {[ "finish_reason" := VStr "stop" ]}
            [ VDict {[ "text" := VStr "a" ]} ] [ VDict {[ "text" := VStr "c" ]} ]
            _ _ _).
  - reflexivity.
  - repeat constructor. eexists. split; [reflexivity | eexists; reflexivity].
  - reflexivity.
Defined.

(** ** Streams, event by event *)

Lemma stream_step_skipped (run_manager : option CallbackManagerForLLMRun)
    (default_class : role) (event : value) :
  is_event event → surfaced event = false →
  stream_step run_manager default_class event = Ok None.
Proof.
  intros Hev Hs.
  destruct (is_event_choices event Hev) as (d & Hd & Hc & Hshape).
  unfold stream_step. rewrite Hd. simpl. rewrite Hc. simpl.
  unfold surfaced, empty_choices, null_delta, first_delta in Hs.
  destruct Hshape as [Hnil | (choice & rest & delta & Hcons & Hdelta)].
  - rewrite Hnil. reflexivity.
  - rewrite Hcons in *. simpl in *. rewrite Hdelta in *. simpl.
    destruct delta; try discriminate. reflexivity.
Qed.

Lemma truthy_insert (k : string) (v : value) (m : gmap string value) :
  truthy (VDict (<[k := v]> m)) = true.
Proof.
  simpl. destruct (Nat.eqb_spec (size (<[k := v]> m)) 0) as [Hz | _]; [| reflexivity].
  apply map_size_empty_iff in Hz. exfalso. exact (insert_non_empty m k v Hz).
Qed.

(** The chunk that one iteration builds from an event that is not skipped,
    given what the callback returns on it. *)
Lemma stream_step_surfaced (run_manager : option CallbackManagerForLLMRun)
    (default_class : role) (event : value) :
  is_event event → surfaced event = true →
  ∃ choice delta c,
    first_choice event = Some choice
    ∧ first_delta event = Some delta
    ∧ message c = _convert_delta_to_message_chunk delta default_class
    ∧ info_of_event event c
    ∧ stream_step run_manager default_class event
      = match run_manager with
        | Some rm =>
            on_llm_new_token rm (text c) c (default VNone (choice !! "logprobs"))
            ≫= λ _, Ok (Some c)
        | None => Ok (Some c)
        end.
Proof.
  intros Hev Hs.
  destruct (is_event_choices event Hev) as (d & Hd & Hc & Hshape).
  unfold surfaced, empty_choices, null_delta, first_delta in Hs.
  destruct Hshape as [Hnil | (choice & rest & delta & Hcons & Hdelta)];
    [rewrite Hnil in Hs; discriminate |].
  rewrite Hcons in Hs. simpl in Hs. rewrite Hdelta in Hs.
  assert (is_None delta = false) as Hnone
    by (destruct delta; try reflexivity; discriminate).
  set (fr := default VNone (choice !! "finish_reason")).
  set (lp := default VNone (choice !! "logprobs")).
  set (info0 := (if truthy fr then <["finish_reason" := fr]> ∅ else ∅)
                : gmap string value).
  set (info := if truthy lp then <["logprobs" := lp]> info0 else info0).
  exists choice, delta,
    {| message := _convert_delta_to_message_chunk delta default_class;
       generation_info := if truthy (VDict info) then Some info else None |}.
  split; [unfold first_choice; rewrite Hcons; reflexivity |].
  split; [unfold first_delta; rewrite Hcons; exact Hdelta |].
  split; [reflexivity |]. split.
  - exists choice. split; [unfold first_choice; rewrite Hcons; reflexivity |].
    fold fr lp. cbn [generation_info]. subst info info0.
    destruct (truthy fr) eqn:Hfr, (truthy lp) eqn:Hlp;
      rewrite ?truthy_insert; [| | | simpl].
    + split; [split; [discriminate | intros [? ?]; discriminate] |].
      intros ? [= <-]. split; [| split].
      * rewrite lookup_insert_ne by discriminate. apply lookup_insert_eq.
      * apply lookup_insert_eq.
      * intros k H1 H2. rewrite !lookup_insert_ne by congruence. apply lookup_empty.
    + split; [split; [discriminate | intros [? ?]; discriminate] |].
      intros ? [= <-]. split; [| split].
      * apply lookup_insert_eq.
      * rewrite lookup_insert_ne by discriminate. apply lookup_empty.
      * intros k H1 H2. rewrite !lookup_insert_ne by congruence. apply lookup_empty.
    + split; [split; [discriminate | intros [? ?]; discriminate] |].
      intros ? [= <-]. split; [| split].
      * rewrite lookup_insert_ne by discriminate. apply lookup_empty.
      * apply lookup_insert_eq.
      * intros k H1 H2. rewrite !lookup_insert_ne by congruence. apply lookup_empty.
    + split; [split; [auto | reflexivity] |]. intros ? [=].
  - unfold stream_step. rewrite Hd. simpl. rewrite Hc. simpl. rewrite Hcons. simpl.
    rewrite Hdelta. simpl. rewrite Hnone. destruct run_manager; reflexivity.
Qed.

Lemma stream_loop_chunks (run_manager : option CallbackManagerForLLMRun)
    (events : list value) :
  Forall is_event events → quiet run_manager →
  ∀ default_class,
    Forall2 info_of_event (List.filter surfaced events)
      (yielded (stream_loop run_manager default_class events))
    ∧ message <$> yielded (stream_loop run_manager default_class events)
      = converted default_class (surfaced_deltas events).
Proof.
  intros Hall Hquiet. induction Hall as [|event events Hev _ IH]; intros cls.
  - split; [constructor | reflexivity].
  - unfold surfaced_deltas. simpl. destruct (surfaced event) eqn:Hs.
    + destruct (stream_step_surfaced run_manager cls event Hev Hs)
        as (choice & delta & c & _ & Hdelta & Hm & Hinfo & Hstep).
      rewrite Hstep.
      assert (match run_manager with
              | Some rm =>
                  on_llm_new_token rm (text c) c (default VNone (choice !! "logprobs"))
                  ≫= λ _, Ok (Some c)
              | None => Ok (Some c)
              end = Ok (Some c)) as ->.
      { destruct run_manager as [rm|]; [| reflexivity].
        rewrite (Hquiet rm eq_refl). reflexivity. }
      simpl. rewrite Hdelta. simpl. rewrite <- Hm.
      destruct (IH (msg_role (message c))) as [Hi Hc].
      split; [constructor; assumption | f_equal; exact Hc].
    + rewrite (stream_step_skipped run_manager cls event Hev Hs). apply IH.
Qed.

(** X6: under the conditions of C2, the generation info of each yielded
    chunk comes from the first choice of its event: the finish reason and
    the log-probabilities are recorded when they are truthy, nothing else
    is, and a chunk whose choice has neither has no generation info. *)
Theorem stream_generation_info (self : ChatLlamaCpp)
    (messages : list BaseMessage) (call_stop : option (list string))
    (run_manager : option CallbackManagerForLLMRun)
    (kwargs : gmap string value) (session : Llama) (events : list value) :
  client self = Some session →
  kwargs !! "messages" = None →
  kwargs !! "stream" = None →
  create_chat_completion session (stream_keywords self messages kwargs)
  = Ok (VList events) →
  Forall is_event events →
  quiet run_manager →
  Forall2 info_of_event (List.filter surfaced events)
    (yielded (_stream self messages call_stop run_manager kwargs)).
Proof.
  intros Hc Hm Hs Hcall Hall Hquiet.
  rewrite (stream_dispatch self messages call_stop run_manager kwargs session Hc Hm Hs).
  rewrite Hcall. simpl.
  apply (stream_loop_chunks run_manager events Hall Hquiet assistant).
Qed.

(** X7: under the conditions of C2, the messages of the yielded chunks are
    the conversions of the first deltas of the events that are not
    skipped, in order; the default class of the first conversion is the
    assistant chunk class, and the default class of every later one is the
    class of the chunk before it. *)
Theorem stream_messages_carry_class (self : ChatLlamaCpp)
    (messages : list BaseMessage) (call_stop : option (list string))
    (run_manager : option CallbackManagerForLLMRun)
    (kwargs : gmap string value) (session : Llama) (events : list value) :
  client self = Some session →
  kwargs !! "messages" = None →
  kwargs !! "stream" = None →
  create_chat_completion session (stream_keywords self messages kwargs)
  = Ok (VList events) →
  Forall is_event events →
  quiet run_manager →
  message <$> yielded (_stream self messages call_stop run_manager kwargs)
  = converted assistant (surfaced_deltas events).
Proof.
  intros Hc Hm Hs Hcall Hall Hquiet.
  rewrite (stream_dispatch self messages call_stop run_manager kwargs session Hc Hm Hs).
  rewrite Hcall. simpl.
  apply (stream_loop_chunks run_manager events Hall Hquiet assistant).
Qed.

(** X6 on a stream of a text delta followed by the final event. *)
Lemma stream_generation_info_witness :
  Forall2 info_of_event [ delta_event "hi"; final_event "stop" ]
    (yielded (_stream
                (configure (Some (replay [ delta_event "hi"; empty_event;
                                           final_event "stop" ]))
                   true (Some []) VNone VNone)
                [] None None ∅)).
Proof.
  refine (stream_generation_info
            (configure (Some (replay [ delta_event "hi"; empty_event;
                                       final_event "stop" ]))
               true (Some []) VNone VNone)
            [] None None ∅
            (replay [ delta_event "hi"; empty_event; final_event "stop" ])
            [ delta_event "hi"; empty_event; final_event "stop" ] _ _ _ _ _ _);
    try reflexivity.
  - repeat constructor; concrete_event.
  - intros rm Hrm. discriminate.
Defined.

(** X7 on a stream whose first delta names the role system and whose
    second delta names no role: both messages have the system class. *)
Lemma stream_messages_carry_class_witness :
  message <$> yielded (_stream
                         (configure (Some (replay [ role_event "system" "a";
                                                    delta_event "b" ]))
                            true (Some []) VNone VNone)
                         [] None None ∅)
  = [ {| msg_role := system; content := VStr "a" |};
      {| msg_role := system; content := VStr "b" |} ].
Proof.
  refine (stream_messages_carry_class
            (configure (Some (replay [ role_event "system" "a"; delta_event "b" ]))
               true (Some []) VNone VNone)
            [] None None ∅
            (replay [ role_event "system" "a"; delta_event "b" ])
            [ role_event "system" "a"; delta_event "b" ] _ _ _ _ _ _);
    try reflexivity.
  - repeat constructor; concrete_event.
  - intros rm Hrm. discriminate.
Defined.

Lemma malformed_step (run_manager : option CallbackManagerForLLMRun)
    (default_class : role) (event : value) (e : exn) :
  malformed event e → stream_step run_manager default_class event = Raise e.
Proof.
  intros [d Hd | d choice rest Hd Hdelta | ev Hev]; unfold stream_step.
  - simpl. rewrite Hd. reflexivity.
  - simpl. rewrite Hd. simpl. rewrite Hdelta. reflexivity.
  - rewrite Hev. reflexivity.
Qed.

Lemma stream_loop_app (run_manager : option CallbackManagerForLLMRun)
    (pre rest : list value) :
  Forall is_event pre → quiet run_manager →
  ∀ default_class, ∃ carried,
    yielded (stream_loop run_manager default_class (pre ++ rest))
    = (yielded (stream_loop run_manager default_class pre)
       ++ yielded (stream_loop run_manager carried rest))%list
    ∧ failure (stream_loop run_manager default_class (pre ++ rest))
      = failure (stream_loop run_manager carried rest).
Proof.
  intros Hall Hquiet. induction Hall as [|event pre Hev _ IH]; intros cls.
  - exists cls. split; reflexivity.
  - cbn [app stream_loop].
    destruct (stream_step_event run_manager cls event Hev Hquiet)
      as [[_ Hstep] | (_ & c & Hstep & _)]; rewrite Hstep.
    + apply IH.
    + destruct (IH (msg_role (message c))) as (carried & Hy & Hf).
      exists carried. simpl. rewrite Hy, Hf. split; reflexivity.
Qed.

(** X8: an event that the loop cannot read (no choices entry, a first
    choice without a delta entry, or neither a dictionary nor an object
    with a dump) ends the stream with the exception of the failed access.
    The chunks of the events before it have been yielded, and the events
    after it are not read. *)
Theorem stream_ends_at_malformed_event (self : ChatLlamaCpp)
    (messages : list BaseMessage) (call_stop : option (list string))
    (run_manager : option CallbackManagerForLLMRun)
    (kwargs : gmap string value) (session : Llama)
    (pre post : list value) (bad : value) (e : exn) :
  client self = Some session →
  kwargs !! "messages" = None →
  kwargs !! "stream" = None →
  create_chat_completion session (stream_keywords self messages kwargs)
  = Ok (VList (pre ++ bad :: post)) →
  Forall is_event pre →
  quiet run_manager →
  malformed bad e →
  failure (_stream self messages call_stop run_manager kwargs) = Some e
  ∧ Forall2 chunk_of_event (List.filter surfaced pre)
      (yielded (_stream self messages call_stop run_manager kwargs)).
Proof.
  intros Hc Hm Hs Hcall Hall Hquiet Hbad.
  rewrite (stream_dispatch self messages call_stop run_manager kwargs session Hc Hm Hs).
  rewrite Hcall. simpl.
  destruct (stream_loop_app run_manager pre (bad :: post) Hall Hquiet assistant)
    as (carried & Hy & Hf).
  rewrite Hy, Hf. cbn [stream_loop].
  rewrite (malformed_step run_manager carried bad e Hbad). simpl.
  rewrite app_nil_r. split; [reflexivity |].
  apply (stream_loop_events run_manager pre Hall Hquiet assistant).
Qed.

(** X8 on a stream whose second event has no choices entry. *)
Lemma stream_ends_at_malformed_event_witness :
  failure (_stream
             (configure (Some (replay [ delta_event "a"; VDict ∅; delta_event "c" ]))
                true (Some []) VNone VNone)
             [] None None ∅)
  = Some (KeyError "choices")
  ∧ Forall2 chunk_of_event [ delta_event "a" ]
      (yielded (_stream
                  (configure (Some (replay [ delta_event "a"; VDict ∅; delta_event "c" ]))
                     true (Some []) VNone VNone)
                  [] None None ∅)).
Proof.
  refine (stream_ends_at_malformed_event
            (configure (Some (replay [ delta_event "a"; VDict ∅; delta_event "c" ]))
               true (Some []) VNone VNone)
            [] None None ∅
            (replay [ delta_event "a"; VDict ∅; delta_event "c" ])
            [ delta_event "a" ] [ delta_event "c" ] (VDict ∅) (KeyError "choices")
            _ _ _ _ _ _ _); try reflexivity.
  - repeat constructor; concrete_event.
  - intros rm Hrm. discriminate.
  - apply no_choices. reflexivity.
Defined.

(** X9: with a callback manager whose token callback raises, the stream
    ends with that exception at the first event that is not skipped, and
    yields nothing: the callback runs before the chunk is yielded.  It is
    not called for skipped events, so a stream of skipped events ends
    normally. *)
Theorem stream_aborts_when_callback_raises (self : ChatLlamaCpp)
    (messages : list BaseMessage) (call_stop : option (list string))
    (rm : CallbackManagerForLLMRun)
    (kwargs : gmap string value) (session : Llama) (events : list value)
    (e : exn) :
  client self = Some session →
  kwargs !! "messages" = None →
  kwargs !! "stream" = None →
  create_chat_completion session (stream_keywords self messages kwargs)
  = Ok (VList events) →
  Forall is_event events →
  (∀ token c logprobs, on_llm_new_token rm token c logprobs = Raise e) →
  _stream self messages call_stop (Some rm) kwargs
  = if existsb surfaced events then abort e else stop_iteration.
Proof.
  intros Hc Hm Hs Hcall Hall Hraise.
  rewrite (stream_dispatch self messages call_stop (Some rm) kwargs session Hc Hm Hs).
  rewrite Hcall. simpl.
  assert (∀ cls, stream_loop (Some rm) cls events
                 = if existsb surfaced events then abort e else stop_iteration)
    as Hloop; [| apply Hloop].
  clear Hcall. induction Hall as [|event events Hev _ IH]; intros cls.
  - reflexivity.
  - simpl. destruct (surfaced event) eqn:Hsurf.
    + destruct (stream_step_surfaced (Some rm) cls event Hev Hsurf)
        as (choice & delta & c & _ & _ & _ & _ & Hstep).
      rewrite Hstep, Hraise. reflexivity.
    + rewrite (stream_step_skipped (Some rm) cls event Hev Hsurf). apply IH.
Qed.

(** X9 on the sample events, and on skipped events alone. *)
Lemma stream_aborts_when_callback_raises_witness :
  _stream sample_model [] None (Some (raising (Raised "observer"))) ∅
  = abort (Raised "observer")
  ∧ _stream (configure (Some (replay [ empty_event; null_event ]))
               true (Some []) VNone VNone)
      [] None (Some (raising (Raised "observer"))) ∅
    = stop_iteration.
Proof.
  split.
  - refine (stream_aborts_when_callback_raises sample_model [] None
              (raising (Raised "observer")) ∅ (replay sample_events)
              sample_events (Raised "observer") _ _ _ _ _ _); try reflexivity.
    repeat constructor; concrete_event.
  - refine (stream_aborts_when_callback_raises
              (configure (Some (replay [ empty_event; null_event ]))
                 true (Some []) VNone VNone)
              [] None (raising (Raised "observer")) ∅
              (replay [ empty_event; null_event ]) [ empty_event; null_event ]
              (Raised "observer") _ _ _ _ _ _); try reflexivity.
    repeat constructor; concrete_event.
Defined.

(** ** Failing calls *)

Lemma keywords_clash (explicit params : gmap string value) (k : string) :
  is_Some (explicit !! k) → is_Some (params !! k) →
  keywords explicit params = Raise TypeError.
Proof.
  intros He Hp. unfold keywords. destruct (decide _) as [Hempty |]; [| reflexivity].
  exfalso. apply (not_elem_of_empty (C := gset string) k). rewrite <- Hempty.
  apply elem_of_intersection. split; apply elem_of_dom; assumption.
Qed.

(** X10: an override named [stream] clashes with the [stream=True] of the
    streaming call: [_stream] ends with a [TypeError] before the session is
    called, and so does [_generate] in streaming mode; without streaming
    the override is passed on to the session. *)
Theorem stream_override_clashes (self : ChatLlamaCpp)
    (messages : list BaseMessage) (call_stop : option (list string))
    (run_manager : option CallbackManagerForLLMRun)
    (kwargs : gmap string value) (session : Llama) (v : value) :
  client self = Some session →
  kwargs !! "stream" = Some v →
  kwargs !! "messages" = None →
  _stream self messages call_stop run_manager kwargs = abort TypeError
  ∧ (streaming self = true →
       _generate self messages call_stop run_manager kwargs = Raise TypeError)
  ∧ (streaming self = false →
       _generate self messages call_stop run_manager kwargs
       = create_chat_completion session (generate_keywords self messages kwargs)
           ≫= _create_chat_result
       ∧ generate_keywords self messages kwargs !! "stream" = Some v).
Proof.
  intros Hc Hs Hm.
  assert (_stream self messages None run_manager kwargs = abort TypeError) as Hstream.
  { unfold _stream. rewrite get_parameters_eq. simpl.
    unfold client_of. rewrite Hc. simpl.
    rewrite (keywords_clash _ _ "stream"); [reflexivity | |].
    - rewrite lookup_insert_ne by discriminate. rewrite lookup_singleton_eq. eauto.
    - exists v. apply lookup_union_Some_l. exact Hs. }
  split; [exact Hstream |]. split.
  - intros Ht. unfold _generate. rewrite Ht, Hstream. reflexivity.
  - intros Hf. split; [apply generate_dispatch; assumption |].
    unfold generate_keywords.
    rewrite keywords_override, Hs by (apply lookup_singleton_ne; discriminate).
    reflexivity.
Qed.

(** X10 on the sample model and the override [stream=False]. *)
Lemma stream_override_clashes_witness :
  _stream sample_model [] None None {[ "stream" := VBool false ]} = abort TypeError
  ∧ _generate sample_model [] None None {[ "stream" := VBool false ]}
    = Raise TypeError.
Proof.
  destruct (stream_override_clashes sample_model [] None None
              {[ "stream" := VBool false ]} (replay sample_events) (VBool false))
    as (Hstream & Hgen & _); [reflexivity | reflexivity | reflexivity |].
  split; [exact Hstream | apply Hgen; reflexivity].
Defined.

(** X11: nothing that the native call raises is caught.  Without a
    session (an adapter that was not validated) both entry points fail
    with an [AttributeError]; an exception of the session ends the stream
    before any chunk, and is the exception of [_generate] in either
    mode. *)
Theorem generation_errors_propagate (self : ChatLlamaCpp)
    (messages : list BaseMessage) (call_stop : option (list string))
    (run_manager : option CallbackManagerForLLMRun)
    (kwargs : gmap string value) :
  kwargs !! "messages" = None →
  kwargs !! "stream" = None →
  (client self = None →
     _stream self messages call_stop run_manager kwargs = abort AttributeError
     ∧ _generate self messages call_stop run_manager kwargs = Raise AttributeError)
  ∧ (∀ session e,
       client self = Some session →
       create_chat_completion session (stream_keywords self messages kwargs)
       = Raise e →
       _stream self messages call_stop run_manager kwargs = abort e
       ∧ (streaming self = true →
            _generate self messages call_stop run_manager kwargs = Raise e))
  ∧ (∀ session e,
       client self = Some session →
       streaming self = false →
       create_chat_completion session (generate_keywords self messages kwargs)
       = Raise e →
       _generate self messages call_stop run_manager kwargs = Raise e).
Proof.
  intros Hm Hs. split; [| split].
  - intros Hnone.
    assert (_stream self messages None run_manager kwargs = abort AttributeError)
      as Hstream.
    { unfold _stream. rewrite get_parameters_eq. simpl.
      unfold client_of. rewrite Hnone. reflexivity. }
    split; [exact Hstream |].
    unfold _generate. rewrite Hstream, get_parameters_eq. simpl.
    unfold client_of. rewrite Hnone. destruct (streaming self); reflexivity.
  - intros session e Hc Hcall.
    assert (_stream self messages None run_manager kwargs = abort e) as Hstream.
    { rewrite (stream_dispatch self messages None run_manager kwargs session Hc Hm Hs).
      rewrite Hcall. reflexivity. }
    split; [exact Hstream |].
    intros Ht. unfold _generate. rewrite Ht, Hstream. reflexivity.
  - intros session e Hc Hf Hcall.
    rewrite (generate_dispatch self messages call_stop run_manager kwargs session
               Hc Hf Hm).
    rewrite Hcall. reflexivity.
Qed.

(** X11 on an adapter without a session. *)
Lemma generation_errors_propagate_witness :
  _stream (configure None true (Some []) VNone VNone) [] None None ∅
  = abort AttributeError
  ∧ _generate (configure None false (Some []) VNone VNone) [] None None ∅
    = Raise AttributeError.
Proof.
  split.
  - apply (generation_errors_propagate (configure None true (Some []) VNone VNone)
             [] None None ∅); reflexivity.
  - apply (generation_errors_propagate (configure None false (Some []) VNone VNone)
             [] None None ∅); reflexivity.
Defined.

(** ** Tool choices *)

Lemma py_eq_str_r (a : value) (s : string) : py_eq a (VStr s) = true ↔ a = VStr s.
Proof.
  destruct a as [|b|z|q|t|l|d|e|cls attrs]; simpl; try (split; discriminate).
  rewrite String.eqb_eq. split; congruence.
Qed.

Lemma py_eq_str_l (s : string) (a : value) : py_eq (VStr s) a = true ↔ a = VStr s.
Proof.
  destruct a as [|b|z|q|t|l|d|e|cls attrs]; simpl; try (split; discriminate).
  rewrite String.eqb_eq. split; congruence.
Qed.

Lemma existsb_py_eq_str (f : value → bool) (names : list value) (s : string) :
  (∀ a, f a = true ↔ a = VStr s) →
  existsb f names = true ↔ VStr s ∈ names.
Proof.
  intros Hf. rewrite existsb_exists, list_elem_of_In. split.
  - intros (a & Hin & Ha). apply Hf in Ha. subst a. exact Hin.
  - intros Hin. exists (VStr s). split; [exact Hin | apply Hf; reflexivity].
Qed.

Lemma filter_by_names (tool_choice : value) (formatted names : list value) :
  mapM function_name formatted = Ok names →
  ∃ chosen,
    filter_by (λ f, name ← function_name f; mret (py_eq name tool_choice)) formatted
    = Ok chosen
    ∧ truthy (VList chosen) = existsb (λ name, py_eq name tool_choice) names.
Proof.
  revert names. induction formatted as [|ft formatted IH]; intros names Hn.
  - inversion Hn. exists []. split; reflexivity.
  - rewrite mapM_result_cons in Hn.
    destruct (function_name ft) as [name|e] eqn:Hname; [| discriminate].
    rewrite bind_Ok in Hn.
    destruct (mapM function_name formatted) as [rest|e] eqn:Hrest; [| discriminate].
    inversion Hn; subst. destruct (IH rest eq_refl) as (chosen & Hf & Ht).
    cbn [filter_by]. rewrite Hname, Hf, bind_Ok. unfold mret, result_ret.
    rewrite !bind_Ok. eexists. split; [reflexivity |].
    cbn [existsb]. destruct (py_eq name tool_choice); [reflexivity | exact Ht].
Qed.

Lemma any_of_names (tool_choice chosen : value) (names : list value) :
  function_name tool_choice = Ok chosen →
  any_of (λ name, chosen ← function_name tool_choice; mret (py_eq chosen name)) names
  = Ok (existsb (py_eq chosen) names).
Proof.
  intros Hc. induction names as [|name names IH]; [reflexivity |].
  cbn [any_of existsb]. rewrite IH, Hc, bind_Ok. unfold mret, result_ret.
  rewrite bind_Ok. destruct (py_eq chosen name); reflexivity.
Qed.

Lemma truthy_nonempty (d : gmap string value) : d ≠ ∅ → truthy (VDict d) = true.
Proof.
  intros Hd. simpl. destruct (Nat.eqb_spec (size d) 0) as [Hz | _]; [| reflexivity].
  apply map_size_empty_iff in Hz. contradiction.
Qed.

Lemma truthy_string (s : string) : s ≠ EmptyString → truthy (VStr s) = true.
Proof.
  intros Hs. simpl. destruct (String.eqb_spec s EmptyString); [contradiction | reflexivity].
Qed.

Section ToolChoices.

Variable convert_to_openai_tool : value → result value.

(** X12: a non-empty string as tool choice is checked against the
    function names of the normalised tools: when it is one of them, the
    tools are bound and the tool choice bound with them is the string
    itself, not a descriptor; when it is none of them, binding fails with
    the error of a tool choice that was not provided. *)
Theorem string_tool_choice (self : ChatLlamaCpp)
    (tools formatted names : list value) (s : string)
    (kwargs : gmap string value) :
  mapM convert_to_openai_tool tools = Ok formatted →
  mapM function_name formatted = Ok names →
  kwargs !! "tools" = None →
  s ≠ EmptyString →
  (VStr s ∈ names →
     bind_tools convert_to_openai_tool self tools (VStr s) kwargs
     = Ok {| bound := self;
             bound_kwargs :=
               {[ "tools" := VList formatted ]} ∪ <["tool_choice" := VStr s]> kwargs |})
  ∧ (VStr s ∉ names →
       bind_tools convert_to_openai_tool self tools (VStr s) kwargs
       = Raise (ValueError ToolChoiceNotProvided)).
Proof.
  intros Hf Hn Hk Hs.
  destruct (filter_by_names (VStr s) formatted names Hn) as (chosen & Hchosen & Ht).
  pose proof (existsb_py_eq_str (λ name, py_eq name (VStr s)) names s
                (λ a, py_eq_str_r a s)) as Hex.
  assert (bind_tools convert_to_openai_tool self tools (VStr s) kwargs
          = if existsb (λ name, py_eq name (VStr s)) names
            then Ok {| bound := self;
                       bound_kwargs :=
                         {[ "tools" := VList formatted ]}
                         ∪ <["tool_choice" := VStr s]> kwargs |}
            else Raise (ValueError ToolChoiceNotProvided)) as Hbind.
  { unfold bind_tools. rewrite Hf, bind_Ok, Hn, bind_Ok, (truthy_string s Hs).
    rewrite Hchosen, bind_Ok, Ht.
    destruct (existsb _ names); [| reflexivity].
    unfold mret, result_ret. rewrite !bind_Ok.
    rewrite (bind_keywords formatted (VStr s) kwargs Hk). reflexivity. }
  rewrite Hbind. split.
  - intros Hin. apply Hex in Hin. rewrite Hin. reflexivity.
  - intros Hnin. destruct (existsb _ names) eqn:He; [| reflexivity].
    exfalso. apply Hnin, Hex. reflexivity.
Qed.

(** X13: a non-empty dictionary as tool choice is compared, by its
    function name, with the function names of the normalised tools.  With
    no tool it is rejected without being read; with tools, a dictionary
    without a function entry is a [KeyError]; a named function that is one
    of the tools binds the dictionary as it is, and one that is none of
    them is rejected. *)
Theorem dict_tool_choice (self : ChatLlamaCpp)
    (tools formatted names : list value) (d : gmap string value)
    (kwargs : gmap string value) :
  mapM convert_to_openai_tool tools = Ok formatted →
  mapM function_name formatted = Ok names →
  kwargs !! "tools" = None →
  d ≠ ∅ →
  (names = [] →
     bind_tools convert_to_openai_tool self tools (VDict d) kwargs
     = Raise (ValueError ToolChoiceNotProvided))
  ∧ (names ≠ [] → d !! "function" = None →
       bind_tools convert_to_openai_tool self tools (VDict d) kwargs
       = Raise (KeyError "function"))
  ∧ (∀ n, function_name (VDict d) = Ok (VStr n) →
       (VStr n ∈ names →
          bind_tools convert_to_openai_tool self tools (VDict d) kwargs
          = Ok {| bound := self;
                  bound_kwargs :=
                    {[ "tools" := VList formatted ]}
                    ∪ <["tool_choice" := VDict d]> kwargs |})
       ∧ (VStr n ∉ names →
            bind_tools convert_to_openai_tool self tools (VDict d) kwargs
            = Raise (ValueError ToolChoiceNotProvided))).
Proof.
  intros Hf Hn Hk Hd. split; [| split].
  - intros ->. unfold bind_tools.
    rewrite Hf, bind_Ok, Hn, bind_Ok, (truthy_nonempty d Hd). reflexivity.
  - intros Hne Hfun. unfold bind_tools.
    rewrite Hf, bind_Ok, Hn, bind_Ok, (truthy_nonempty d Hd).
    destruct names as [|name names]; [congruence |].
    assert (function_name (VDict d) = Raise (KeyError "function")) as Hraise
      by (unfold function_name; simpl; rewrite Hfun; reflexivity).
    cbn [any_of]. rewrite Hraise. reflexivity.
  - intros n Hname.
    pose proof (existsb_py_eq_str (py_eq (VStr n)) names n (py_eq_str_l n)) as Hex.
    assert (bind_tools convert_to_openai_tool self tools (VDict d) kwargs
            = if existsb (py_eq (VStr n)) names
              then Ok {| bound := self;
                         bound_kwargs :=
                           {[ "tools" := VList formatted ]}
                           ∪ <["tool_choice" := VDict d]> kwargs |}
              else Raise (ValueError ToolChoiceNotProvided)) as Hbind.
    { unfold bind_tools. rewrite Hf, bind_Ok, Hn, bind_Ok, (truthy_nonempty d Hd).
      rewrite (any_of_names (VDict d) (VStr n) names Hname), bind_Ok.
      destruct (existsb _ names); [| reflexivity].
      unfold mret, result_ret. rewrite !bind_Ok.
      rewrite (bind_keywords formatted (VDict d) kwargs Hk). reflexivity. }
    rewrite Hbind. split.
    + intros Hin. apply Hex in Hin. rewrite Hin. reflexivity.
    + intros Hnin. destruct (existsb _ names) eqn:He; [| reflexivity].
      exfalso. apply Hnin, Hex. reflexivity.
Qed.

End ToolChoices.

(** X12 on two tools, with the name of the second and with another name. *)
Lemma string_tool_choice_witness :
  bind_tools wrap_function_schema sample_model [answer_schema; search_schema]
    (VStr "Search") ∅
  = Ok {| bound := sample_model;
          bound_kwargs :=
            {[ "tools" :=
                 VList [ VDict {[ "type" := VStr "function";
                                  "function" := answer_schema ]};
                         VDict {[ "type" := VStr "function";
                                  "function" := search_schema ]} ] ]}
            ∪ <["tool_choice" := VStr "Search"]> ∅ |}
  ∧ bind_tools wrap_function_schema sample_model [answer_schema; search_schema]
      (VStr "Other") ∅
    = Raise (ValueError ToolChoiceNotProvided).
Proof.
  split.
  - refine (proj1 (string_tool_choice wrap_function_schema sample_model
                     [answer_schema; search_schema]
                     [ VDict {[ "type" := VStr "function"; "function" := answer_schema ]};
                       VDict {[ "type" := VStr "function"; "function" := search_schema ]} ]
                     [VStr "Answer"; VStr "Search"] "Search" ∅ _ _ _ _) _);
      try reflexivity; [discriminate |].
    apply list_elem_of_In. simpl. auto.
  - refine (proj2 (string_tool_choice wrap_function_schema sample_model
                     [answer_schema; search_schema]
                     [ VDict {[ "type" := VStr "function"; "function" := answer_schema ]};
                       VDict {[ "type" := VStr "function"; "function" := search_schema ]} ]
                     [VStr "Answer"; VStr "Search"] "Other" ∅ _ _ _ _) _);
      try reflexivity; [discriminate |].
    intros Hin. apply list_elem_of_In in Hin. simpl in Hin.
    destruct Hin as [H | [H | []]]; discriminate.
Defined.

(** X13 on one tool and a dictionary naming it, and on no tool. *)
Lemma dict_tool_choice_witness :
  bind_tools wrap_function_schema sample_model [answer_schema]
    (VDict {[ "type" := VStr "function";
              "function" := VDict {[ "name" := VStr "Answer" ]} ]}) ∅
  = Ok {| bound := sample_model;
          bound_kwargs :=
            {[ "tools" :=
                 VList [ VDict {[ "type" := VStr "function";
                                  "function" := answer_schema ]} ] ]}
            ∪ <["tool_choice" :=
                  VDict {[ "type" := VStr "function";
                           "function" := VDict {[ "name" := VStr "Answer" ]} ]}]> ∅ |}
  ∧ bind_tools wrap_function_schema sample_model []
      (VDict {[ "unrelated" := VInt 1 ]}) ∅
    = Raise (ValueError ToolChoiceNotProvided).
Proof.
  split.
  - destruct (dict_tool_choice wrap_function_schema sample_model [answer_schema]
                [ VDict {[ "type" := VStr "function"; "function" := answer_schema ]} ]
                [VStr "Answer"]
                {[ "type" := VStr "function";
                   "function" := VDict {[ "name" := VStr "Answer" ]} ]} ∅)
      as (_ & _ & Hnamed);
      [reflexivity | reflexivity | reflexivity | apply insert_non_empty |].
    apply (Hnamed "Answer"); [reflexivity |].
    apply list_elem_of_In. simpl. auto.
  - destruct (dict_tool_choice wrap_function_schema sample_model [] [] []
                {[ "unrelated" := VInt 1 ]} ∅)
      as (Hnone & _);
      [reflexivity | reflexivity | reflexivity | apply insert_non_empty |].
    apply Hnone. reflexivity.
Defined.

Section ToolBindingResults.

Variable convert_to_openai_tool : value → result value.

(** X14: binding is additive.  Whenever [bind_tools] returns, the bound
    model is the adapter itself, the bound arguments hold the normalised
    tools under [tools] and a tool choice under [tool_choice] (the given
    one when it is falsy), and every other keyword argument is bound as it
    was given.  A tool that does not normalise makes binding fail with the
    exception of the normaliser, whatever the tool choice. *)
Theorem bind_tools_is_additive (self : ChatLlamaCpp) (tools : list value)
    (tool_choice : value) (kwargs : gmap string value) :
  (∀ b,
     bind_tools convert_to_openai_tool self tools tool_choice kwargs = Ok b →
     bound b = self
     ∧ (∃ formatted,
          mapM convert_to_openai_tool tools = Ok formatted
          ∧ bound_kwargs b !! "tools" = Some (VList formatted))
     ∧ is_Some (bound_kwargs b !! "tool_choice")
     ∧ (truthy tool_choice = false →
          bound_kwargs b !! "tool_choice" = Some tool_choice)
     ∧ (∀ k, k ≠ "tools" → k ≠ "tool_choice" →
          bound_kwargs b !! k = kwargs !! k))
  ∧ (∀ e,
       mapM convert_to_openai_tool tools = Raise e →
       bind_tools convert_to_openai_tool self tools tool_choice kwargs = Raise e).
Proof.
  split.
  - intros b Hb. unfold bind_tools in Hb.
    destruct (mapM convert_to_openai_tool tools) as [formatted|e] eqn:Hf;
      [| discriminate].
    rewrite bind_Ok in Hb.
    destruct (mapM function_name formatted) as [names|e]; [| discriminate].
    rewrite bind_Ok in Hb.
    match type of Hb with
    | mbind _ ?resolved = _ => destruct resolved as [choice|e] eqn:Hchoice
    end; [| discriminate].
    rewrite !bind_Ok in Hb. unfold keywords in Hb.
    destruct (decide _) as [_ | _]; [| discriminate].
    rewrite bind_Ok in Hb. injection Hb as <-. simpl.
    split; [reflexivity |]. split; [| split; [| split]].
    + exists formatted. split; [reflexivity |].
      apply lookup_union_Some_l. apply lookup_singleton_eq.
    + exists choice. rewrite lookup_union_r by (apply lookup_singleton_ne; discriminate).
      apply lookup_insert_eq.
    + intros Ht. rewrite Ht in Hchoice. injection Hchoice as <-.
      rewrite lookup_union_r by (apply lookup_singleton_ne; discriminate).
      apply lookup_insert_eq.
    + intros k H1 H2.
      rewrite lookup_union_r by (apply lookup_singleton_ne; congruence).
      apply lookup_insert_ne. congruence.
  - intros e He. unfold bind_tools. rewrite He. reflexivity.
Qed.

End ToolBindingResults.

(** X14 on a binding with an extra keyword argument. *)
Lemma bind_tools_is_additive_witness :
  ∃ b,
    bind_tools wrap_function_schema sample_model [answer_schema] VNone
      {[ "temperature" := VFloat 0 ]} = Ok b
    ∧ bound b = sample_model
    ∧ bound_kwargs b !! "tool_choice" = Some VNone
    ∧ bound_kwargs b !! "temperature" = Some (VFloat 0).
Proof.
  assert (∃ b, bind_tools wrap_function_schema sample_model [answer_schema] VNone
                 {[ "temperature" := VFloat 0 ]} = Ok b) as [b Hb]
    by (eexists; reflexivity).
  exists b. split; [exact Hb |].
  destruct (proj1 (bind_tools_is_additive wrap_function_schema sample_model
                     [answer_schema] VNone {[ "temperature" := VFloat 0 ]}) b Hb)
    as (Hbound & _ & _ & Hchoice & Hother).
  split; [exact Hbound |]. split; [apply Hchoice; reflexivity |].
  rewrite Hother by discriminate. reflexivity.
Defined.

(** ** Structured output *)

Section StructuredOutput.

Variable convert_to_openai_tool : value → result value.
Variable PydanticToolsParser : list value → bool → Runnable.
Variable JsonOutputKeyToolsParser : value → bool → Runnable.
Variable invoke : RunnableBinding → Runnable.

Lemma bind_single_tool (self : ChatLlamaCpp) (schema ft name : value) :
  convert_to_openai_tool schema = Ok ft →
  function_name ft = Ok name →
  bind_tools convert_to_openai_tool self [schema] (VBool true) ∅
  = Ok {| bound := self;
          bound_kwargs := {[ "tools" := VList [ft] ]} ∪ <["tool_choice" := ft]> ∅ |}.
Proof.
  intros Hconv Hname.
  assert (mapM convert_to_openai_tool [schema] = Ok [ft]) as Hf
    by (rewrite mapM_result_cons, Hconv; reflexivity).
  assert (mapM function_name [ft] = Ok [name]) as Hn
    by (rewrite mapM_result_cons, Hname; reflexivity).
  unfold bind_tools. rewrite Hf, bind_Ok, Hn, bind_Ok. simpl.
  rewrite (bind_keywords [ft] ft ∅ (lookup_empty _)). reflexivity.
Qed.

Lemma output_parser_for_schema (schema ft name : value) :
  convert_to_openai_tool schema = Ok ft →
  function_name ft = Ok name →
  output_parser_for convert_to_openai_tool PydanticToolsParser
    JsonOutputKeyToolsParser schema
  = Ok (if is_pydantic_class schema then PydanticToolsParser [schema] true
        else JsonOutputKeyToolsParser name true).
Proof.
  intros Hconv Hname. unfold output_parser_for.
  destruct (is_pydantic_class schema); [reflexivity |].
  rewrite Hconv, bind_Ok, Hname. reflexivity.
Qed.

(** X15: [with_structured_output] checks its arguments in this order: any
    extra keyword argument is rejected, even without a schema; then a
    missing schema is rejected; then a schema that does not normalise
    fails with the exception of the normaliser, in both modes. *)
Theorem structured_output_rejects_arguments (self : ChatLlamaCpp)
    (schema : value) (include_raw : bool) (kwargs : gmap string value) :
  (kwargs ≠ ∅ →
     with_structured_output convert_to_openai_tool PydanticToolsParser
       JsonOutputKeyToolsParser invoke self schema include_raw kwargs
     = Raise (ValueError UnsupportedArguments))
  ∧ (schema = VNone →
       with_structured_output convert_to_openai_tool PydanticToolsParser
         JsonOutputKeyToolsParser invoke self schema include_raw ∅
       = Raise (ValueError SchemaMissing))
  ∧ (∀ e, is_None schema = false →
       convert_to_openai_tool schema = Raise e →
       with_structured_output convert_to_openai_tool PydanticToolsParser
         JsonOutputKeyToolsParser invoke self schema include_raw ∅
       = Raise e).
Proof.
  split; [| split].
  - intros Hk. unfold with_structured_output. rewrite (truthy_nonempty kwargs Hk).
    reflexivity.
  - intros ->. reflexivity.
  - intros e Hs He. unfold with_structured_output. rewrite Hs.
    cbn [truthy size]. unfold bind_tools.
    rewrite mapM_result_cons, He. reflexivity.
Qed.

(** X16: for a schema that normalises to a descriptor with a function
    name, the pipeline is the adapter bound to that one tool, with the
    tool itself as the forced choice, followed by the parser of the schema:
    the pydantic parser for a pydantic class, and otherwise the parser
    keyed by the function name.  With [include_raw=False] the output is
    what the parser returns; with [include_raw=True] it is the record of
    the raw answer, the parsed value and a null parsing error. *)
Theorem structured_output_pipeline (self : ChatLlamaCpp)
    (schema ft name : value) :
  is_None schema = false →
  convert_to_openai_tool schema = Ok ft →
  function_name ft = Ok name →
  let llm :=
    {| bound := self;
       bound_kwargs := {[ "tools" := VList [ft] ]} ∪ <["tool_choice" := ft]> ∅ |} in
  let output_parser :=
    if is_pydantic_class schema then PydanticToolsParser [schema] true
    else JsonOutputKeyToolsParser name true in
  ∃ with_raw without_raw,
    with_structured_output convert_to_openai_tool PydanticToolsParser
      JsonOutputKeyToolsParser invoke self schema true ∅ = Ok with_raw
    ∧ with_structured_output convert_to_openai_tool PydanticToolsParser
        JsonOutputKeyToolsParser invoke self schema false ∅ = Ok without_raw
    ∧ ∀ input,
        without_raw input = invoke llm input ≫= output_parser
        ∧ (∀ raw parsed,
             invoke llm input = Ok raw →
             output_parser raw = Ok parsed →
             with_raw input
             = Ok (VDict {[ "raw" := raw; "parsed" := parsed;
                            "parsing_error" := VNone ]}))
        ∧ (∀ e,
             invoke llm input = Raise e →
             with_raw input = Raise e ∧ without_raw input = Raise e).
Proof.
  intros Hs Hconv Hname llm output_parser.
  pose proof (bind_single_tool self schema ft name Hconv Hname) as Hllm.
  pose proof (output_parser_for_schema schema ft name Hconv Hname) as Hparser.
  fold llm in Hllm. fold output_parser in Hparser.
  eexists _, _. split; [| split].
  - unfold with_structured_output. rewrite Hs, Hllm. simpl. rewrite Hparser.
    simpl. reflexivity.
  - unfold with_structured_output. rewrite Hs, Hllm. simpl. rewrite Hparser.
    simpl. reflexivity.
  - intros input. split; [reflexivity |]. split.
    + intros raw parsed Hraw Hparsed. unfold pipe, RunnableMap_raw.
      rewrite Hraw, bind_Ok. unfold mret, result_ret. rewrite bind_Ok.
      unfold with_fallbacks. unfold RunnablePassthrough_assign at 1.
      rewrite !mapM_result_cons. unfold itemgetter, getitem.
      rewrite lookup_singleton_eq, !bind_Ok, Hparsed. reflexivity.
    + intros e He. unfold pipe, RunnableMap_raw. rewrite He. split; reflexivity.
Qed.

End StructuredOutput.

(** X15 on an extra keyword argument and no schema. *)
Lemma structured_output_rejects_arguments_witness :
  with_structured_output wrap_function_schema (λ _ _, failing_parser) key_parser
    sample_invoke sample_model VNone false {[ "method" := VStr "json_mode" ]}
  = Raise (ValueError UnsupportedArguments).
Proof.
  apply (structured_output_rejects_arguments wrap_function_schema
           (λ _ _, failing_parser) key_parser sample_invoke sample_model VNone false
           {[ "method" := VStr "json_mode" ]}).
  apply insert_non_empty.
Defined.

(** X16 on the answer schema: the parser is keyed by its function name,
    and a failure of the model is raised in both modes. *)
Lemma structured_output_pipeline_witness :
  (∃ with_raw,
     with_structured_output wrap_function_schema (λ _ _, failing_parser) key_parser
       sample_invoke sample_model answer_schema true ∅ = Ok with_raw
     ∧ with_raw (VStr "question")
       = Ok (VDict {[ "raw" := sample_reply;
                      "parsed" := VDict {[ "parsed_with" := VStr "Answer" ]};
                      "parsing_error" := VNone ]}))
  ∧ (∃ with_raw,
       with_structured_output wrap_function_schema (λ _ _, failing_parser) key_parser
         failing_invoke sample_model answer_schema true ∅ = Ok with_raw
       ∧ with_raw (VStr "question") = Raise (Raised "context window exceeded")).
Proof.
  split.
  - destruct (structured_output_pipeline wrap_function_schema (λ _ _, failing_parser)
                key_parser sample_invoke sample_model answer_schema
                (VDict {[ "type" := VStr "function"; "function" := answer_schema ]})
                (VStr "Answer") eq_refl eq_refl eq_refl)
      as (with_raw & without_raw & Hwith & _ & Hrun).
    exists with_raw. split; [exact Hwith |].
    apply (Hrun (VStr "question")); reflexivity.
  - destruct (structured_output_pipeline wrap_function_schema (λ _ _, failing_parser)
                key_parser failing_invoke sample_model answer_schema
                (VDict {[ "type" := VStr "function"; "function" := answer_schema ]})
                (VStr "Answer") eq_refl eq_refl eq_refl)
      as (with_raw & without_raw & Hwith & _ & Hrun).
    exists with_raw. split; [exact Hwith |].
    apply (Hrun (VStr "question")). reflexivity.
Defined.

(** ** Generation without streaming, end to end *)

(** X17: without streaming, when the session answers the dispatched call
    with a dictionary whose choices are dictionaries with a text,
    [_generate] returns one generation per choice, in order, each
    translated from its choice, and the usage statistics of the response
    (an empty dictionary when there are none) as token usage.  Neither the
    stop argument nor the callback manager has a part in it. *)
Theorem generate_translates_response (self : ChatLlamaCpp)
    (messages : list BaseMessage) (call_stop : option (list string))
    (run_manager : option CallbackManagerForLLMRun)
    (kwargs : gmap string value) (session : Llama)
    (response : gmap string value) (choices : list value) :
  client self = Some session →
  streaming self = false →
  kwargs !! "messages" = None →
  create_chat_completion session (generate_keywords self messages kwargs)
  = Ok (VDict response) →
  response !! "choices" = Some (VList choices) →
  Forall is_choice choices →
  ∃ gens,
    _generate self messages call_stop run_manager kwargs
    = Ok {| generations := gens;
            llm_output :=
              Some {[ "token_usage" := default (VDict ∅) (response !! "usage") ]} |}
    ∧ Forall2 translated choices gens
    ∧ _generate self messages None None kwargs
      = _generate self messages call_stop run_manager kwargs.
Proof.
  intros Hc Hf Hm Hcall Hchoices Hall.
  destruct (mapM_result_Forall2 create_generation translated is_choice choices
              create_generation_translated Hall) as (gens & Hgens & HR).
  exists gens.
  split; [| split; [exact HR | unfold _generate; rewrite Hf; reflexivity]].
  rewrite (generate_dispatch self messages call_stop run_manager kwargs session
             Hc Hf Hm).
  rewrite Hcall, bind_Ok. unfold _create_chat_result. simpl. rewrite Hchoices.
  simpl. rewrite Hgens. reflexivity.
Qed.

(** X17 on the session that answers with the choices a and b. *)
Lemma generate_translates_response_witness :
  ∃ gens,
    _generate (configure (Some two_choices) false (Some []) VNone VNone)
      [] (Some ["END"]) (Some (raising (Raised "observer"))) ∅
    = Ok {| generations := gens;
            llm_output := Some {[ "token_usage" := VDict ∅ ]} |}
    ∧ Forall2 translated [ VDict {[ "text" := VStr "a" ]}; VDict {[ "text" := VStr "b" ]} ]
        gens.
Proof.
  destruct (generate_translates_response
              (configure (Some two_choices) false (Some []) VNone VNone)
              [] (Some ["END"]) (Some (raising (Raised "observer"))) ∅ two_choices
              {[ "choices" := VList [ VDict {[ "text" := VStr "a" ]};
                                      VDict {[ "text" := VStr "b" ]} ] ]}
              [ VDict {[ "text" := VStr "a" ]}; VDict {[ "text" := VStr "b" ]} ])
    as (gens & Hgen & HR & _);
    [ reflexivity | reflexivity | reflexivity | reflexivity | reflexivity
    | repeat constructor; eexists; (split; [reflexivity | eexists; reflexivity]) |].
  exists gens. split; [exact Hgen | exact HR].
Defined.
